(** * scaffoldfitter: the gross alignment fit step (fitterstepalign.py)

    A shallow embedding of [createFieldsTransformations] and of the class
    [FitterStepAlign], followed by the properties of the marker matcher,
    of the transformation model, of the settings codec and of the setters.

    Conventions of the embedding:
    - Python floats are modelled by the real numbers of the Standard
      Library, Python ints by [Z]; rounding is not modelled.
    - A Python dict is an insertion-ordered association list whose keys are
      pairwise distinct.
    - Marker names are strings of 8-bit characters; [strip] and [casefold]
      are modelled on the ASCII range, other characters are left as they
      are.
    - A method of the step is a function from the world (the step object,
      the model coordinates owned by the fitter, the text printed so far)
      to a result (a value or a raised exception) and the world it leaves. *)

From Stdlib Require Import List String Ascii Bool ZArith Lia.
From Stdlib Require Import Reals Lra.
From Stdlib Require Import DecimalString.
Import ListNotations.

Local Open Scope string_scope.
Local Open Scope list_scope.

(** ** Exceptions and results *)

Inductive exn : Type :=
| AssertionError (msg : string)
| KeyError (key : string)
| TypeError
| ZeroDivisionError.

Inductive res (A : Type) : Type :=
| Ok (a : A)
| Raise (e : exn).

Arguments Ok {A} a.
Arguments Raise {A} e.

(** ** Python values held by the step and by its JSON settings *)

#[local] Set Warnings "-register-all".

Inductive pyval : Type :=
| PyNone
| PyBool (b : bool)
| PyInt (z : Z)
| PyFloat (x : R)
| PyStr (s : string)
| PyList (l : list pyval).

Definition Reqb (x y : R) : bool :=
  if Req_dec_T x y then true else false.

(** The numeric tower: bool is a subclass of int, and ints compare with
    floats by value. *)
Definition as_number (v : pyval) : option R :=
  match v with
  | PyBool b => Some (if b then 1%R else 0%R)
  | PyInt z => Some (IZR z)
  | PyFloat x => Some x
  | _ => None
  end.

(** [a == b] on the values above; lists compare element by element. *)
Fixpoint py_eq (a b : pyval) : bool :=
  match a, b with
  | PyNone, PyNone => true
  | PyStr s, PyStr t => String.eqb s t
  | PyList l, PyList m =>
      (fix list_eq (l m : list pyval) {struct l} : bool :=
         match l, m with
         | [], [] => true
         | x :: l', y :: m' => py_eq x y && list_eq l' m'
         | _, _ => false
         end) l m
  | _, _ =>
      match as_number a, as_number b with
      | Some x, Some y => Reqb x y
      | _, _ => false
      end
  end.

(** [a != b]. *)
Definition py_ne (a b : pyval) : bool := negb (py_eq a b).

(** Truth value of an object, as tested by [if] and [assert]. *)
Definition truthy (v : pyval) : bool :=
  match v with
  | PyNone => false
  | PyBool b => b
  | PyInt z => negb (Z.eqb z 0)
  | PyFloat x => negb (Reqb x 0)
  | PyStr s => negb (String.eqb s EmptyString)
  | PyList l => match l with [] => false | _ => true end
  end.

(** [isinstance(v, float)]. *)
Definition isinstance_float (v : pyval) : bool :=
  match v with PyFloat _ => true | _ => false end.

(** [len(v)]; raises TypeError on an object without a length. *)
Definition py_len (v : pyval) : res nat :=
  match v with
  | PyList l => Ok (List.length l)
  | PyStr s => Ok (String.length s)
  | _ => Raise TypeError
  end.

(** [str(n)] for a non-negative int. *)
Definition str_of_nat (n : nat) : string :=
  NilEmpty.string_of_uint (Nat.to_uint n).

(** ** Dicts *)

Module Dict.

Definition t (V : Type) : Type := list (string * V).

Definition keys {V} (d : t V) : list string := map fst d.

(** [d[k]], [None] standing for KeyError. *)
Fixpoint get {V} (k : string) (d : t V) : option V :=
  match d with
  | [] => None
  | (k', v) :: d' => if String.eqb k' k then Some v else get k d'
  end.

(** [k in d]. *)
Definition mem {V} (k : string) (d : t V) : bool :=
  match get k d with Some _ => true | None => false end.

(** [d[k] = v]: the value is replaced in place when the key exists,
    otherwise the entry is appended. *)
Fixpoint set {V} (k : string) (v : V) (d : t V) : t V :=
  match d with
  | [] => [(k, v)]
  | (k', v') :: d' =>
      if String.eqb k' k then (k', v) :: d' else (k', v') :: set k v d'
  end.

(** [d.pop(k)], for the dict that is left. *)
Fixpoint pop {V} (k : string) (d : t V) : t V :=
  match d with
  | [] => []
  | (k', v') :: d' =>
      if String.eqb k' k then d' else (k', v') :: pop k d'
  end.

Definition wf {V} (d : t V) : Prop := NoDup (keys d).

End Dict.

(** ** Marker names *)

(** Whitespace of [str.strip()] on the ASCII range: tab, line feed,
    vertical tab, form feed, carriage return, the four separators
    0x1c..0x1f and the space. *)
Definition is_space (c : ascii) : bool :=
  let n := nat_of_ascii c in
  (Nat.leb 9 n && Nat.leb n 13) || (Nat.leb 28 n && Nat.leb n 32).

Fixpoint lstrip (s : string) : string :=
  match s with
  | EmptyString => EmptyString
  | String c s' => if is_space c then lstrip s' else s
  end.

Fixpoint rstrip (s : string) : string :=
  match s with
  | EmptyString => EmptyString
  | String c s' =>
      match rstrip s' with
      | EmptyString => if is_space c then EmptyString else String c EmptyString
      | r => String c r
      end
  end.

Definition strip (s : string) : string := rstrip (lstrip s).

Definition fold_char (c : ascii) : ascii :=
  let n := nat_of_ascii c in
  if Nat.leb 65 n && Nat.leb n 90 then ascii_of_nat (n + 32) else c.

Fixpoint casefold (s : string) : string :=
  match s with
  | EmptyString => EmptyString
  | String c s' => String (fold_char c) (casefold s')
  end.

(** [name.strip().casefold()] *)
Definition matchName_of (name : string) : string := casefold (strip name).

(** ** Zinc fields

    The field module of OpenCMISS-Zinc is an external library.  A field is
    modelled by its number of components and its value at every node of the
    domain; an operation whose arguments do not fit yields an invalid field,
    here [None]. *)

Record Field : Type := mkField {
  getNumberOfComponents : nat;
  evaluate : nat -> list R
}.

Fixpoint zip_with (f : R -> R -> R) (u v : list R) : list R :=
  match u, v with
  | x :: u', y :: v' => f x y :: zip_with f u' v'
  | _, _ => []
  end.

Definition dot (u v : list R) : R :=
  fold_right Rplus 0%R (zip_with Rmult u v).

(** Product of a row-major matrix of [rows] rows and [s] columns with a
    vector of [s] entries. *)
Fixpoint mat_vec (rows s : nat) (m v : list R) : list R :=
  match rows with
  | O => []
  | S r => dot (firstn s m) v :: mat_vec r s (skipn s m) v
  end.

(** Values handed to [createFieldConstant]: a number or a list of numbers. *)
Fixpoint real_list (l : list pyval) : option (list R) :=
  match l with
  | [] => Some []
  | v :: l' =>
      match as_number v, real_list l' with
      | Some x, Some xs => Some (x :: xs)
      | _, _ => None
      end
  end.

Definition real_values (v : pyval) : option (list R) :=
  match v with
  | PyList [] => None
  | PyList l => real_list l
  | _ => option_map (fun x => [x]) (as_number v)
  end.

Definition constant_field (xs : list R) : Field :=
  mkField (List.length xs) (fun _ => xs).

Definition createFieldConstant (v : pyval) : option Field :=
  option_map constant_field (real_values v).

(** Binary component-wise operators broadcast a scalar field over the
    components of the other argument. *)
Definition broadcast (n : nat) (u : list R) : list R :=
  match u with
  | [x] => repeat x n
  | _ => u
  end.

Definition componentwise (f : R -> R -> R) (a b : option Field) : option Field :=
  match a, b with
  | Some fa, Some fb =>
      let na := getNumberOfComponents fa in
      let nb := getNumberOfComponents fb in
      if Nat.eqb na nb || Nat.eqb na 1 || Nat.eqb nb 1 then
        let n := Nat.max na nb in
        Some (mkField n (fun node =>
                zip_with f (broadcast n (evaluate fa node))
                           (broadcast n (evaluate fb node))))
      else None
  | _, _ => None
  end.

(** [a * b] and [a + b] on fields. *)
Definition field_mul := componentwise Rmult.
Definition field_add := componentwise Rplus.

(** [createFieldMatrixMultiply(rows, m, v)] for a vector [v]. *)
Definition createFieldMatrixMultiply (rows : nat) (m v : option Field) : option Field :=
  match m, v with
  | Some fm, Some fv =>
      let s := getNumberOfComponents fv in
      if Nat.eqb (getNumberOfComponents fm) (rows * s) && negb (Nat.eqb s 0) then
        Some (mkField rows (fun node =>
                mat_vec rows s (evaluate fm node) (evaluate fv node)))
      else None
  | _, _ => None
  end.

(** Elementary rotations, as row-major 3x3 matrices acting on column
    vectors. *)
Definition rot_z (a : R) : list R :=
  [cos a; (- sin a)%R; 0%R;
   sin a; cos a; 0%R;
   0%R; 0%R; 1%R].

Definition rot_y (a : R) : list R :=
  [cos a; 0%R; sin a;
   0%R; 1%R; 0%R;
   (- sin a)%R; 0%R; cos a].

Definition rot_x (a : R) : list R :=
  [1%R; 0%R; 0%R;
   0%R; cos a; (- sin a)%R;
   0%R; sin a; cos a].

Definition column (j : nat) (m : list R) : list R :=
  [nth j m 0%R; nth (3 + j) m 0%R; nth (6 + j) m 0%R].

Definition row (i : nat) (m : list R) : list R := firstn 3 (skipn (3 * i) m).

(** Product of two row-major 3x3 matrices. *)
Definition mat_mul (a b : list R) : list R :=
  flat_map (fun i => map (fun j => dot (row i a) (column j b)) [0; 1; 2]) [0; 1; 2].

(** Modelled from the spec: [create_field_euler_angles_rotation_matrix]
    belongs to opencmiss.utils and is not part of the sources.  The spec
    and the docstring of [setRotation] fix the sequence: first about the
    z-axis by angle 0 (azimuth), then about the rotated y-axis by angle 1
    (elevation), then about the rotated x-axis by angle 2 (roll).  For
    column vectors this is the product Rz(angle 0) Ry(angle 1) Rx(angle 2). *)
Definition euler_rotation_matrix (angles : list R) : list R :=
  mat_mul (mat_mul (rot_z (nth 0 angles 0%R)) (rot_y (nth 1 angles 0%R)))
          (rot_x (nth 2 angles 0%R)).

Definition create_field_euler_angles_rotation_matrix (euler_angles : option Field)
  : option Field :=
  match euler_angles with
  | Some fa =>
      if Nat.eqb (getNumberOfComponents fa) 3 then
        Some (mkField 9 (fun node => euler_rotation_matrix (evaluate fa node)))
      else None
  | None => None
  end.

(** ** createFieldsTransformations *)

Definition bind {A B} (r : res A) (k : A -> res B) : res B :=
  match r with
  | Ok a => k a
  | Raise e => Raise e
  end.

Notation "x <- r ;; k" := (bind r (fun x => k))
  (at level 61, r at next level, right associativity).

Definition zero_vector : pyval := PyList [PyFloat 0; PyFloat 0; PyFloat 0].

Definition invalid_arguments : string :=
  "createFieldsTransformations.  Invalid arguments".

(** The condition of the argument assertion; [and] evaluates its right
    operand only when the left one holds. *)
Definition arguments_valid (components_count : nat)
    (rotation_angles scale_value translation_offsets : pyval) : res bool :=
  if Nat.eqb components_count 3 then
    n <- py_len rotation_angles ;;
    if Nat.eqb n components_count then
      if isinstance_float scale_value then
        m <- py_len translation_offsets ;;
        Ok (Nat.eqb m components_count)
      else Ok false
    else Ok false
  else Ok false.

(** Returns the four fields transformedCoordinates, rotation, scale and
    translation. *)
Definition createFieldsTransformations (coordinates : Field)
    (rotation_angles scale_value translation_offsets : pyval)
    (translation_scale_factor : R) : res (Field * Field * Field * Field) :=
  let rotation_angles :=
    match rotation_angles with PyNone => zero_vector | _ => rotation_angles end in
  let translation_offsets :=
    match translation_offsets with PyNone => zero_vector | _ => translation_offsets end in
  let components_count := getNumberOfComponents coordinates in
  ok <- arguments_valid components_count rotation_angles scale_value translation_offsets ;;
  if ok then
    let rotation := createFieldConstant rotation_angles in
    let scale := createFieldConstant scale_value in
    let translation := createFieldConstant translation_offsets in
    let rotation_matrix := create_field_euler_angles_rotation_matrix rotation in
    let rotated_coordinates :=
      createFieldMatrixMultiply components_count rotation_matrix (Some coordinates) in
    let transformed_coordinates :=
      field_add (field_mul rotated_coordinates scale)
        (if Reqb translation_scale_factor 1 then translation
         else field_mul translation
                (createFieldConstant
                   (PyList (repeat (PyFloat translation_scale_factor) components_count)))) in
    match transformed_coordinates, rotation, scale, translation with
    | Some tc, Some r, Some s, Some t => Ok (tc, r, s, t)
    | _, _, _, _ => Raise (AssertionError EmptyString)
    end
  else Raise (AssertionError invalid_arguments).

(** ** Methods: state and exceptions

    A method run on a state [S] yields a value or a raised exception,
    together with the state as the method leaves it; the state reached at
    a raise is kept, so that what an aborted call has already written can
    be told. *)

Definition M (S A : Type) : Type := S -> res A * S.

Definition ret {S A} (a : A) : M S A := fun s => (Ok a, s).

Definition raise {S A} (e : exn) : M S A := fun s => (Raise e, s).

Definition mbind {S A B} (m : M S A) (k : A -> M S B) : M S B :=
  fun s =>
    match m s with
    | (Ok a, s') => k a s'
    | (Raise e, s') => (Raise e, s')
    end.

Notation "x <~ m ;; k" := (mbind m (fun x => k))
  (at level 61, m at next level, right associativity).

Definition get {S} : M S S := fun s => (Ok s, s).

Definition modify {S} (f : S -> S) : M S unit := fun s => (Ok tt, f s).

Definition lift {S A} (r : res A) : M S A := fun s => (r, s).

(** [assert c, msg] *)
Definition assert_ {S} (c : bool) (msg : string) : M S unit :=
  if c then ret tt else raise (AssertionError msg).

(** [d[k]] *)
Definition subscript {V} (d : Dict.t V) (k : string) : res V :=
  match Dict.get k d with
  | Some v => Ok v
  | None => Raise (KeyError k)
  end.

(** ** The step object *)

Record FitterStepAlign : Type := mkStep {
  _alignMarkers : pyval;
  _rotation : pyval;
  _scale : pyval;
  _translation : pyval;
  _hasRun : bool
}.

Definition with_alignMarkers (v : pyval) (self : FitterStepAlign) : FitterStepAlign :=
  mkStep v (_rotation self) (_scale self) (_translation self) (_hasRun self).

Definition with_rotation (v : pyval) (self : FitterStepAlign) : FitterStepAlign :=
  mkStep (_alignMarkers self) v (_scale self) (_translation self) (_hasRun self).

Definition with_scale (v : pyval) (self : FitterStepAlign) : FitterStepAlign :=
  mkStep (_alignMarkers self) (_rotation self) v (_translation self) (_hasRun self).

Definition with_translation (v : pyval) (self : FitterStepAlign) : FitterStepAlign :=
  mkStep (_alignMarkers self) (_rotation self) (_scale self) v (_hasRun self).

Definition setHasRun (b : bool) (self : FitterStepAlign) : FitterStepAlign :=
  mkStep (_alignMarkers self) (_rotation self) (_scale self) (_translation self) b.

(** [__init__] *)
Definition init : FitterStepAlign :=
  mkStep (PyBool false) zero_vector (PyFloat 1) zero_vector false.

Definition _jsonTypeId : string := "_FitterStepAlign".

Definition decodeSettingsJSONDict (dct : Dict.t pyval) : M FitterStepAlign unit :=
  _ <~ assert_ (Dict.mem _jsonTypeId dct) EmptyString ;;
  v <~ lift (subscript dct "alignMarkers") ;;
  _ <~ modify (with_alignMarkers v) ;;
  v <~ lift (subscript dct "rotation") ;;
  _ <~ modify (with_rotation v) ;;
  v <~ lift (subscript dct "scale") ;;
  _ <~ modify (with_scale v) ;;
  v <~ lift (subscript dct "translation") ;;
  modify (with_translation v).

Definition encodeSettingsJSONDict (self : FitterStepAlign) : Dict.t pyval :=
  Dict.set "translation" (_translation self)
    (Dict.set "scale" (_scale self)
       (Dict.set "rotation" (_rotation self)
          (Dict.set "alignMarkers" (_alignMarkers self)
             (Dict.set _jsonTypeId (PyBool true) [])))).

Definition isAlignMarkers (self : FitterStepAlign) : pyval := _alignMarkers self.

Definition setAlignMarkers (alignMarkers : pyval) : M FitterStepAlign bool :=
  self <~ get ;;
  if py_ne alignMarkers (_alignMarkers self) then
    _ <~ modify (with_alignMarkers alignMarkers) ;;
    ret true
  else ret false.

Definition getRotation (self : FitterStepAlign) : pyval := _rotation self.

(** [copy.copy] makes a new list of the same elements: the same value. *)
Definition copy (v : pyval) : pyval := v.

Definition setRotation (rotation : pyval) : M FitterStepAlign bool :=
  n <~ lift (py_len rotation) ;;
  _ <~ assert_ (Nat.eqb n 3) "FitterStepAlign:  Invalid rotation" ;;
  self <~ get ;;
  if py_ne rotation (_rotation self) then
    _ <~ modify (with_rotation (copy rotation)) ;;
    ret true
  else ret false.

Definition getScale (self : FitterStepAlign) : pyval := _scale self.

Definition setScale (scale : pyval) : M FitterStepAlign bool :=
  self <~ get ;;
  if py_ne scale (_scale self) then
    _ <~ modify (with_scale scale) ;;
    ret true
  else ret false.

Definition getTranslation (self : FitterStepAlign) : pyval := _translation self.

Definition setTranslation (translation : pyval) : M FitterStepAlign bool :=
  n <~ lift (py_len translation) ;;
  _ <~ assert_ (Nat.eqb n 3) "FitterStepAlign:  Invalid translation" ;;
  self <~ get ;;
  if py_ne translation (_translation self) then
    _ <~ modify (with_translation (copy translation)) ;;
    ret true
  else ret false.

(** ** Matching model markers with data markers *)

Definition Point : Type := list R.

(** The local variables of the matching loop of [_doAlignMarkers], and the
    lines it prints. *)
Record matching : Type := mkMatching {
  markerMap : Dict.t (Point * Point);
  dataMarkers : Dict.t Point;
  printed : list string
}.

Definition print (line : string) (m : matching) : matching :=
  mkMatching (markerMap m) (dataMarkers m) (printed m ++ [line]).

Definition found_message (modelName dataName : string) : string :=
  "Align:  Model marker '" ++ modelName ++ "' found in data"
  ++ (if negb (String.eqb dataName modelName) then " as '" ++ dataName ++ "'" else EmptyString).

Definition not_in_data_message (modelName : string) : string :=
  "Align:  Model marker '" ++ modelName ++ "' not found in data".

Definition not_in_model_message (dataName : string) : string :=
  "Align:  Data marker '" ++ dataName ++ "' not found in model".

(** The inner [for dataName in dataMarkers] with its [else] clause; the
    loop runs over the names the dict holds when it starts and leaves at
    the first match. *)
Fixpoint search_data (writeDiagnostics : bool) (modelMarkers : Dict.t Point)
    (modelName matchName : string) (dataNames : list string) (m : matching)
  : res matching :=
  match dataNames with
  | [] =>
      Ok (if writeDiagnostics then print (not_in_data_message modelName) m else m)
  | dataName :: rest =>
      if String.eqb (matchName_of dataName) matchName then
        modelPoint <- subscript modelMarkers modelName ;;
        dataPoint <- subscript (dataMarkers m) dataName ;;
        let m1 :=
          mkMatching (Dict.set modelName (modelPoint, dataPoint) (markerMap m))
                     (dataMarkers m) (printed m) in
        if writeDiagnostics then
          let m2 := print (found_message modelName dataName) m1 in
          Ok (mkMatching (markerMap m2) (Dict.pop dataName (dataMarkers m2)) (printed m2))
        else Ok m1
      else search_data writeDiagnostics modelMarkers modelName matchName rest m
  end.

(** The outer [for modelName in modelMarkers]. *)
Fixpoint match_loop (writeDiagnostics : bool) (modelMarkers : Dict.t Point)
    (modelNames : list string) (m : matching) : res matching :=
  match modelNames with
  | [] => Ok m
  | modelName :: rest =>
      m' <- search_data writeDiagnostics modelMarkers modelName
              (matchName_of modelName) (Dict.keys (dataMarkers m)) m ;;
      match_loop writeDiagnostics modelMarkers rest m'
  end.

(** The matching part of [_doAlignMarkers]: both loops and the closing
    report of the data markers that are left. *)
Definition match_markers (writeDiagnostics : bool)
    (modelMarkers dataMarkers0 : Dict.t Point) : res matching :=
  m <- match_loop writeDiagnostics modelMarkers (Dict.keys modelMarkers)
         (mkMatching [] dataMarkers0 []) ;;
  Ok (if writeDiagnostics then
        fold_left (fun acc dataName => print (not_in_model_message dataName) acc)
                  (Dict.keys (dataMarkers m)) m
      else m).

(** ** The fitter and the optimiser *)

(** Modelled from the spec: the class Fitter (scaffoldfitter.fitter) and
    [getNodeNameCentres] (opencmiss.utils) are not part of the sources.
    What the step asks of them: the model coordinates field, the marker
    group, the model and data marker positions by name (absent when a
    marker group, coordinates or name field is missing), the data scale
    and the diagnostic level. *)
Record Fitter : Type := mkFitter {
  getModelCoordinatesField : option Field;
  getMarkerGroup : option string;
  getMarkerModelCentres : option (Dict.t Point);
  getMarkerDataCentres : option (Dict.t Point);
  getDataScale : R;
  getDiagnosticLevel : Z
}.

Definition assign_model_coordinates (f : Field) (fitter : Fitter) : Fitter :=
  mkFitter (Some f) (getMarkerGroup fitter) (getMarkerModelCentres fitter)
           (getMarkerDataCentres fitter) (getDataScale fitter) (getDiagnosticLevel fitter).

Record world : Type := mkWorld {
  self : FitterStepAlign;
  fitter : Fitter;
  stdout : list string
}.

Definition on_self (f : FitterStepAlign -> FitterStepAlign) (w : world) : world :=
  mkWorld (f (self w)) (fitter w) (stdout w).

Definition on_fitter (f : Fitter -> Fitter) (w : world) : world :=
  mkWorld (self w) (f (fitter w)) (stdout w).

Definition write (lines : list string) (w : world) : world :=
  mkWorld (self w) (fitter w) (stdout w ++ lines).

(** What the Zinc optimisation hands back: whether it reported RESULT_OK,
    the values of the three independent fields and the solution report. *)
Record Solution : Type := mkSolution {
  result_ok : bool;
  rotation_values : list R;
  scale_value : R;
  translation_values : list R;
  solutionReport : string
}.

Definition sum_squares (u : list R) : R :=
  fold_right Rplus 0%R (map (fun x => (x * x)%R) u).

Definition square_norms_sum (field : option Field) (nodes : nat) : R :=
  match field with
  | Some f => fold_right Rplus 0%R (map (fun node => sum_squares (evaluate f node)) (seq 0 nodes))
  | None => 0%R
  end.

Definition all_of_length (n : nat) (ps : list Point) : bool :=
  forallb (fun p => Nat.eqb (List.length p) n) ps.

Section Step.

(** The least squares quasi-Newton optimisation of Zinc, started from the
    values the independent fields hold, for an objective given as a
    function of the rotation, scale and translation values. *)
Variable optimise : (list R -> R -> list R -> R) -> Solution.

(** One node is made per item of [markerMap], in the order of the dict.
    Zinc calls on valid arguments are taken to succeed: [assignReal] on
    positions of 3 values (positions of another length are outside the
    model, which fails the set-up assertion on them), the objective field,
    and the evaluation of the three constant fields once the optimisation
    has returned; the assertions on their results are therefore not
    raised here. *)
Definition _optimiseAlignment (markerMap : Dict.t (Point * Point)) : M world unit :=
  let count := List.length markerMap in
  _ <~ assert_ (Nat.leb 3 count)
        ("Align:  Only " ++ str_of_nat count ++ " markers - need at least 3") ;;
  w <~ get ;;
  let dataScale := getDataScale (fitter w) in
  let positions := map snd markerMap in
  _ <~ assert_ (all_of_length 3 (map fst positions) && all_of_length 3 (map snd positions))
        "Align:  Failed to set up data for alignment to markers optimisation" ;;
  let modelCoordinates := mkField 3 (fun node => nth node (map fst positions) []) in
  let dataCoordinates := mkField 3 (fun node => nth node (map snd positions) []) in
  _ <~ lift (createFieldsTransformations modelCoordinates PyNone (PyFloat 1) PyNone dataScale) ;;
  _ <~ (if Reqb dataScale 0 then raise ZeroDivisionError else ret tt) ;;
  let objective (rotation : list R) (scale : R) (translation : list R) : R :=
    match createFieldsTransformations modelCoordinates
            (PyList (map PyFloat rotation)) (PyFloat scale)
            (PyList (map PyFloat translation)) dataScale with
    | Ok (modelCoordinatesTransformed, _, _, _) =>
        let markerDiff :=
          componentwise Rminus (Some dataCoordinates) (Some modelCoordinatesTransformed) in
        let scaledMarkerDiff :=
          field_mul markerDiff (Some (constant_field (repeat (1 / dataScale)%R 3))) in
        square_norms_sum scaledMarkerDiff count
    | Raise _ => 0%R
    end in
  let solution := optimise objective in
  _ <~ (if Z.ltb 1 (getDiagnosticLevel (fitter w)) then
          modify (write [solutionReport solution])
        else ret tt) ;;
  _ <~ assert_ (result_ok solution) "Align:  Alignment to markers optimisation failed" ;;
  _ <~ modify (on_self (with_rotation (PyList (map PyFloat (rotation_values solution))))) ;;
  _ <~ modify (on_self (with_scale (PyFloat (scale_value solution)))) ;;
  _ <~ modify (on_self (with_translation
                 (PyList (map PyFloat (translation_values solution))))) ;;
  modify (on_self (with_translation
            (PyList (map (fun s => PyFloat (s * dataScale)%R) (translation_values solution))))).

Definition require {A} (o : option A) (msg : string) : M world A :=
  match o with
  | Some a => ret a
  | None => raise (AssertionError msg)
  end.

Definition _doAlignMarkers : M world unit :=
  w <~ get ;;
  _ <~ require (getMarkerGroup (fitter w)) "Align:  No marker group to align with" ;;
  modelMarkers <~ require (getMarkerModelCentres (fitter w))
                    "Align:  No marker group, coordinates or name fields" ;;
  dataMarkers0 <~ require (getMarkerDataCentres (fitter w))
                    "Align:  No marker data group, coordinates or name fields" ;;
  let writeDiagnostics := Z.ltb 0 (getDiagnosticLevel (fitter w)) in
  m <~ lift (match_markers writeDiagnostics modelMarkers dataMarkers0) ;;
  _ <~ modify (write (printed m)) ;;
  _optimiseAlignment (markerMap m).

(** The assignment of the transformed coordinates is taken to succeed,
    so the assertion on its result is not raised here; the update of the
    reference coordinates and the data projections are the fitter's own,
    are taken to return, and leave the step as it is. *)
Definition run : M world unit :=
  w <~ get ;;
  modelCoordinates <~ require (getModelCoordinatesField (fitter w))
                        "Align:  Missing model coordinates" ;;
  _ <~ (if truthy (_alignMarkers (self w)) then _doAlignMarkers else ret tt) ;;
  w <~ get ;;
  fields <~ lift (createFieldsTransformations modelCoordinates
                    (_rotation (self w)) (_scale (self w)) (_translation (self w)) 1) ;;
  let '(modelCoordinatesTransformed, _, _, _) := fields in
  _ <~ modify (on_fitter (assign_model_coordinates
                 (mkField (getNumberOfComponents modelCoordinates)
                          (evaluate modelCoordinatesTransformed)))) ;;
  modify (on_self (setHasRun true)).

End Step.

(** ** The transformation in closed form *)

Definition vscale (k : R) (v : list R) : list R := map (Rmult k) v.

Definition vadd (u v : list R) : list R := zip_with Rplus u v.

(** scale * (R(angles) * p) + factor * translation *)
Definition rotate_scale_translate (angles : list R) (scale : R) (translation : list R)
    (factor : R) (p : list R) : list R :=
  vadd (vscale scale (mat_vec 3 3 (euler_rotation_matrix angles) p))
       (vscale factor translation).

(** ** The matcher in closed form *)

(** The entry's name, stripped and case-folded, is [target]. *)
Definition matches (target : string) (e : string * Point) : bool :=
  String.eqb (matchName_of (fst e)) target.

(** The state the inner loop leaves when it has paired [modelName] with
    the data entry [dataName]. *)
Definition paired (writeDiagnostics : bool) (modelName : string) (modelPoint : Point)
    (dataName : string) (dataPoint : Point) (m : matching) : matching :=
  mkMatching (Dict.set modelName (modelPoint, dataPoint) (markerMap m))
             (if writeDiagnostics then Dict.pop dataName (dataMarkers m) else dataMarkers m)
             (if writeDiagnostics then printed m ++ [found_message modelName dataName]
              else printed m).

(** ** Statements and sample inputs *)

Definition too_few_message (count : nat) : string :=
  "Align:  Only " ++ str_of_nat count ++ " markers - need at least 3".

(** What a setter does: nothing when the value given equals the stored
    one, otherwise it stores the value and reports the change. *)
Definition reports_change (setter : pyval -> M FitterStepAlign bool)
    (field : FitterStepAlign -> pyval)
    (update : pyval -> FitterStepAlign -> FitterStepAlign)
    (v : pyval) (self : FitterStepAlign) : Prop :=
  setter v self =
  if py_eq v (field self) then (Ok false, self) else (Ok true, update v self).

(** A model of three components with a single node. *)
Definition unit_cube_corner : Field := mkField 3 (fun _ => [1; 1; 1]%R).

(** An optimiser that reports success with the identity parameters. *)
Definition idle_optimise (objective : list R -> R -> list R -> R) : Solution :=
  mkSolution true [0; 0; 0]%R 1%R [0; 0; 0]%R EmptyString.

(** A world whose marker groups exist and are empty. *)
Definition no_markers_world : world :=
  mkWorld (mkStep (PyBool true) zero_vector (PyFloat 1) zero_vector false)
          (mkFitter (Some unit_cube_corner) (Some "marker") (Some []) (Some []) 1%R 0%Z)
          [].

(** A world whose step holds the integer scale 2 and does not align to
    markers. *)
Definition integer_scale_world : world :=
  mkWorld (mkStep (PyBool false) zero_vector (PyInt 2) zero_vector false)
          (mkFitter (Some unit_cube_corner) None None None 1%R 0%Z)
          [].

(** Two model markers whose names differ by case and whitespace only, and
    two data markers of that name. *)
Definition apex_model : Dict.t Point :=
  [("Apex", [0; 0; 0]%R); ("apex ", [1; 0; 0]%R)].

Definition apex_data : Dict.t Point :=
  [("APEX", [5; 5; 5]%R); ("apex", [6; 6; 6]%R)].

(** The same model markers with a single data marker of that name. *)
Definition single_apex_data : Dict.t Point :=
  [("APEX", [5; 5; 5]%R)].

(** ** Further statements and sample inputs *)

(** The objective [_optimiseAlignment] hands to the optimisation: the sum
    over the marker nodes of the squares of (data - transformed model) /
    dataScale. *)
Definition alignment_objective (markerMap : Dict.t (Point * Point)) (dataScale : R)
    (rotation : list R) (scale : R) (translation : list R) : R :=
  let positions := map snd markerMap in
  let modelCoordinates := mkField 3 (fun node => nth node (map fst positions) []) in
  let dataCoordinates := mkField 3 (fun node => nth node (map snd positions) []) in
  match createFieldsTransformations modelCoordinates
          (PyList (map PyFloat rotation)) (PyFloat scale)
          (PyList (map PyFloat translation)) dataScale with
  | Ok (modelCoordinatesTransformed, _, _, _) =>
      let markerDiff :=
        componentwise Rminus (Some dataCoordinates) (Some modelCoordinatesTransformed) in
      let scaledMarkerDiff :=
        field_mul markerDiff (Some (constant_field (repeat (1 / dataScale)%R 3))) in
      square_norms_sum scaledMarkerDiff (List.length markerMap)
  | Raise _ => 0%R
  end.

Definition floats (xs : list R) : pyval := PyList (map PyFloat xs).

(** Settings with the type tag and the flag but no rotation. *)
Definition settings_without_rotation : Dict.t pyval :=
  [(_jsonTypeId, PyBool true); ("alignMarkers", PyBool true)].

(** Complete settings with a further key and a tag that is not True. *)
Definition settings_with_comment : Dict.t pyval :=
  [("comment", PyStr "coarse fit"); (_jsonTypeId, PyInt 1);
   ("translation", floats [5; 1; -3]%R); ("scale", PyFloat 2);
   ("rotation", floats [0; 0; 0]%R); ("alignMarkers", PyBool false)].

(** Three markers present in the model and, under other spellings, in the
    data. *)
Definition three_model_markers : Dict.t Point :=
  [("Apex", [0; 0; 0]%R); ("Base", [1; 0; 0]%R); ("Septum", [0; 1; 0]%R)].

Definition three_data_markers : Dict.t Point :=
  [("septum", [5; 3; -3]%R); (" APEX ", [5; 1; -3]%R); ("base", [7; 1; -3]%R)].

(** The pairs the matcher makes of them. *)
Definition three_pairs : Dict.t (Point * Point) :=
  [("Apex", ([0; 0; 0]%R, [5; 1; -3]%R)); ("Base", ([1; 0; 0]%R, [7; 1; -3]%R));
   ("Septum", ([0; 1; 0]%R, [5; 3; -3]%R))].

(** A world that aligns to these markers, with data scale 2. *)
Definition three_markers_world : world :=
  mkWorld (mkStep (PyBool true) zero_vector (PyFloat 1) zero_vector false)
          (mkFitter (Some unit_cube_corner) (Some "marker")
                    (Some three_model_markers) (Some three_data_markers) 2%R 0%Z)
          [].

(** An optimiser that reports scale 2 and the translation (5, 1, -3) / 2. *)
Definition fixed_optimise (objective : list R -> R -> list R -> R) : Solution :=
  mkSolution true [0; 0; 0]%R 2%R [5 / 2; 1 / 2; -3 / 2]%R "converged".

(** An optimiser that reports failure. *)
Definition failing_optimise (objective : list R -> R -> list R -> R) : Solution :=
  mkSolution false [0; 0; 0]%R 1%R [0; 0; 0]%R "no convergence".

(** A world whose step holds scale 2 and translation (5, 1, -3) and does
    not align to markers. *)
Definition scaled_world : world :=
  mkWorld (mkStep (PyBool false) (floats [0; 0; 0]%R) (PyFloat 2) (floats [5; 1; -3]%R) false)
          (mkFitter (Some unit_cube_corner) None None None 1%R 0%Z)
          [].

(** Settings whose rotation has two angles only, and the world of a step
    that has decoded them. *)
Definition settings_with_short_rotation : Dict.t pyval :=
  [(_jsonTypeId, PyBool true); ("alignMarkers", PyBool false);
   ("rotation", PyList [PyFloat 0; PyFloat 0]); ("scale", PyFloat 1);
   ("translation", zero_vector)].

Definition short_rotation_world : world :=
  mkWorld (mkStep (PyBool false) (PyList [PyFloat 0; PyFloat 0]) (PyFloat 1)
                  zero_vector false)
          (mkFitter (Some unit_cube_corner) None None None 1%R 0%Z)
          [].

(** A world without model coordinates. *)
Definition empty_world : world :=
  mkWorld init (mkFitter None None None None 1%R 0%Z) [].

(** What every recorded pair satisfies: its model point is the one of the
    model dict, and its data point belongs to a data entry of the same
    stripped and case-folded name. *)
Definition pairs_sound (modelMarkers dataMarkers0 : Dict.t Point) (m : matching) : Prop :=
  (forall name modelPoint dataPoint,
      Dict.get name (markerMap m) = Some (modelPoint, dataPoint) ->
      Dict.get name modelMarkers = Some modelPoint
      /\ exists dataName,
           In (dataName, dataPoint) dataMarkers0
           /\ matchName_of dataName = matchName_of name)
  /\ (forall e, In e (dataMarkers m) -> In e dataMarkers0).

(** The step after a fit: the rotation and scale of the solution, and its
    translation brought back to absolute units. *)
Definition fitted (solution : Solution) (dataScale : R) (self : FitterStepAlign)
  : FitterStepAlign :=
  mkStep (_alignMarkers self) (floats (rotation_values solution))
         (PyFloat (scale_value solution))
         (PyList (map (fun s => PyFloat (s * dataScale)%R) (translation_values solution)))
         (_hasRun self).

(** The second half of [run]: the transformation is built from the stored
    parameters, assigned to the model coordinates, and the step is marked
    as run. *)
Definition apply_transformation (modelCoordinates : Field) (w : world) : res unit * world :=
  match createFieldsTransformations modelCoordinates
          (_rotation (self w)) (_scale (self w)) (_translation (self w)) 1 with
  | Ok (modelCoordinatesTransformed, _, _, _) =>
      (Ok tt,
       on_self (setHasRun true)
         (on_fitter (assign_model_coordinates
                       (mkField (getNumberOfComponents modelCoordinates)
                                (evaluate modelCoordinatesTransformed))) w))
  | Raise e => (Raise e, w)
  end.

Arguments matchName_of : simpl never.

(** * Properties *)

(** ** Evaluation on small inputs *)

Example str_of_nat_2 : str_of_nat 2 = "2".
Proof. reflexivity. Qed.

Example matchName_Apex : matchName_of "Apex" = "apex".
Proof. reflexivity. Qed.

Example matchName_apex_spaces : matchName_of " apex " = "apex".
Proof. reflexivity. Qed.

Example matchName_APEX : matchName_of "APEX" = "apex".
Proof. reflexivity. Qed.

(** ** Settings codec *)

Lemma decode_encode (self other : FitterStepAlign) :
  decodeSettingsJSONDict (encodeSettingsJSONDict self) other =
  (Ok tt, mkStep (_alignMarkers self) (_rotation self) (_scale self)
                 (_translation self) (_hasRun other)).
Proof. destruct self, other; reflexivity. Qed.

(** C6: encoding a step, decoding the dict into any step and encoding again
    gives the first dict back, the four settings being restored one by one;
    and decoding a dict without the type tag raises at the assertion,
    before anything is stored. *)
Theorem settings_round_trip :
  (forall self other : FitterStepAlign, exists self',
      decodeSettingsJSONDict (encodeSettingsJSONDict self) other = (Ok tt, self')
      /\ _alignMarkers self' = _alignMarkers self
      /\ _rotation self' = _rotation self
      /\ _scale self' = _scale self
      /\ _translation self' = _translation self
      /\ encodeSettingsJSONDict self' = encodeSettingsJSONDict self)
  /\ (forall (dct : Dict.t pyval) (other : FitterStepAlign),
         Dict.mem _jsonTypeId dct = false ->
         decodeSettingsJSONDict dct other = (Raise (AssertionError EmptyString), other)).
Proof.
  split.
  - intros self other. eexists. split; [apply decode_encode|].
    destruct self; cbn. repeat split.
  - intros dct other Habsent.
    unfold decodeSettingsJSONDict, mbind, assert_. now rewrite Habsent.
Qed.

Lemma settings_round_trip_witness :
  Dict.mem _jsonTypeId [("scale", PyFloat 1)] = false
  /\ decodeSettingsJSONDict [("scale", PyFloat 1)] init = (Raise (AssertionError EmptyString), init).
Proof.
  split; [reflexivity|].
  apply (proj2 settings_round_trip). reflexivity.
Defined.

(** ** Setters *)

Lemma Reqb_true (x y : R) : Reqb x y = true <-> x = y.
Proof.
  unfold Reqb. destruct (Req_dec_T x y); split; intros; congruence.
Qed.

Lemma py_eq_float_list (l1 l2 : list R) :
  py_eq (PyList (map PyFloat l1)) (PyList (map PyFloat l2)) = true <-> l1 = l2.
Proof.
  revert l2. induction l1 as [|x l1 IH]; intros [|y l2]; cbn; try (split; congruence).
  rewrite andb_true_iff, Reqb_true. specialize (IH l2). cbn in IH. rewrite IH.
  split; [intros [-> ->]; reflexivity | intros H; injection H; auto].
Qed.

Lemma setter_len3 (field : FitterStepAlign -> pyval)
    (update : pyval -> FitterStepAlign -> FitterStepAlign) (msg : string)
    (v : pyval) (self : FitterStepAlign) :
  py_len v = Ok 3 ->
  (n <~ lift (py_len v) ;;
   _ <~ assert_ (Nat.eqb n 3) msg ;;
   self <~ get ;;
   if py_ne v (field self) then _ <~ modify (update (copy v)) ;; ret true else ret false)
    self
  = if py_eq v (field self) then (Ok false, self) else (Ok true, update v self).
Proof.
  intros Hlen. unfold mbind, lift, py_ne. rewrite Hlen. cbn.
  destruct (py_eq v (field self)); reflexivity.
Qed.

(** C7: every setter returns False and leaves the step as it is when the
    value given equals the stored one, and otherwise stores it and returns
    True (rotation and translation once their length is 3); equality is
    that of the values: of the flags, of the numbers, and element by
    element on lists. *)
Theorem setters_report_change (v : pyval) (self : FitterStepAlign) :
  reports_change setAlignMarkers _alignMarkers with_alignMarkers v self
  /\ reports_change setScale _scale with_scale v self
  /\ (py_len v = Ok 3 -> reports_change setRotation _rotation with_rotation v self)
  /\ (py_len v = Ok 3 -> reports_change setTranslation _translation with_translation v self)
  /\ (forall a b : bool, py_eq (PyBool a) (PyBool b) = true <-> a = b)
  /\ (forall x y : R, py_eq (PyFloat x) (PyFloat y) = true <-> x = y)
  /\ (forall l1 l2 : list R,
         py_eq (PyList (map PyFloat l1)) (PyList (map PyFloat l2)) = true <-> l1 = l2).
Proof.
  unfold reports_change.
  split; [|split; [|split; [|split; [|split; [|split]]]]].
  - unfold setAlignMarkers, mbind, py_ne. cbn.
    destruct (py_eq v (_alignMarkers self)); reflexivity.
  - unfold setScale, mbind, py_ne. cbn.
    destruct (py_eq v (_scale self)); reflexivity.
  - intros Hlen. now apply setter_len3.
  - intros Hlen. now apply setter_len3.
  - intros a b. cbn. rewrite Reqb_true.
    destruct a, b; split; intros H; try reflexivity; try discriminate; exfalso; lra.
  - intros x y. cbn. apply Reqb_true.
  - apply py_eq_float_list.
Qed.

Lemma setters_report_change_witness :
  py_len zero_vector = Ok 3
  /\ reports_change setRotation _rotation with_rotation zero_vector init.
Proof.
  split; [reflexivity|].
  apply (setters_report_change zero_vector init). reflexivity.
Defined.

(** ** Too few markers *)

Lemma optimise_too_few (optimise : (list R -> R -> list R -> R) -> Solution)
    (markerMap : Dict.t (Point * Point)) (w : world) :
  List.length markerMap < 3 ->
  _optimiseAlignment optimise markerMap w =
  (Raise (AssertionError (too_few_message (List.length markerMap))), w).
Proof.
  intros Hfew. unfold _optimiseAlignment, mbind, assert_.
  destruct (Nat.leb 3 (List.length markerMap)) eqn:Hle.
  - apply Nat.leb_le in Hle. lia.
  - reflexivity.
Qed.

(** C3: with fewer than 3 matched pairs [_optimiseAlignment] raises the
    assertion error whose message carries the number of pairs, and writes
    nothing: the world is the one it was called in.  A run that aligns to
    markers and matches fewer than 3 of them raises that error too, and
    leaves the step object as it was; only the diagnostics of the matching
    have been printed. *)
Theorem too_few_markers_abort (optimise : (list R -> R -> list R -> R) -> Solution) :
  (forall (markerMap : Dict.t (Point * Point)) (w : world),
      List.length markerMap < 3 ->
      _optimiseAlignment optimise markerMap w =
      (Raise (AssertionError (too_few_message (List.length markerMap))), w))
  /\ (forall (w : world) coords group modelMarkers dataMarkers0 m,
         getModelCoordinatesField (fitter w) = Some coords ->
         truthy (_alignMarkers (self w)) = true ->
         getMarkerGroup (fitter w) = Some group ->
         getMarkerModelCentres (fitter w) = Some modelMarkers ->
         getMarkerDataCentres (fitter w) = Some dataMarkers0 ->
         match_markers (Z.ltb 0 (getDiagnosticLevel (fitter w))) modelMarkers dataMarkers0
           = Ok m ->
         List.length (markerMap m) < 3 ->
         run optimise w =
         (Raise (AssertionError (too_few_message (List.length (markerMap m)))),
          mkWorld (self w) (fitter w) (stdout w ++ printed m))).
Proof.
  split.
  - intros markerMap w. apply optimise_too_few.
  - intros w coords group modelMarkers dataMarkers0 m Hc Ha Hg Hm Hd Hmatch Hfew.
    unfold run, mbind at 1 2 3. cbn. rewrite Hc. cbn. rewrite Ha.
    unfold _doAlignMarkers, mbind at 1 2 3 4 5 6. cbn.
    rewrite Hg, Hm, Hd. cbn. unfold lift. rewrite Hmatch. cbn.
    unfold write at 1.
    now rewrite (optimise_too_few optimise (markerMap m) _ Hfew).
Qed.

Lemma too_few_markers_abort_witness :
  run idle_optimise no_markers_world =
  (Raise (AssertionError "Align:  Only 0 markers - need at least 3"), no_markers_world).
Proof.
  apply (proj2 (too_few_markers_abort idle_optimise) no_markers_world
               unit_cube_corner "marker" [] [] (mkMatching [] [] []));
    try reflexivity.
  cbn. lia.
Defined.

(** ** The scale must be a float *)

Lemma arguments_valid_int (components_count : nat) (l : list pyval) (z : Z)
    (translation_offsets : pyval) :
  arguments_valid components_count (PyList l) (PyInt z) translation_offsets = Ok false.
Proof.
  unfold arguments_valid.
  destruct (Nat.eqb components_count 3); [|reflexivity].
  cbn. destruct (Nat.eqb (List.length l) components_count); reflexivity.
Qed.

Lemma integer_scale_invalid (coordinates : Field) (rotation_angles : pyval) (z : Z)
    (translation_offsets : pyval) (translation_scale_factor : R) :
  rotation_angles = PyNone \/ (exists l, rotation_angles = PyList l) ->
  createFieldsTransformations coordinates rotation_angles (PyInt z)
    translation_offsets translation_scale_factor
  = Raise (AssertionError invalid_arguments).
Proof.
  intros [-> | [l ->]]; unfold createFieldsTransformations; cbv zeta;
    unfold zero_vector; now rewrite arguments_valid_int.
Qed.

(** C10: [createFieldsTransformations] fails its argument assertion for
    every int given as scale, whatever the other arguments (the rotation
    being a list or left to its default); [setScale] stores an int that
    differs from the stored scale as it is, and so does
    [decodeSettingsJSONDict]; and a run that does not align to markers,
    hence builds the transformation from the stored int, raises that
    assertion error and changes nothing. *)
Theorem integer_scale_rejected :
  (forall coordinates rotation_angles (z : Z) translation_offsets translation_scale_factor,
      rotation_angles = PyNone \/ (exists l, rotation_angles = PyList l) ->
      createFieldsTransformations coordinates rotation_angles (PyInt z)
        translation_offsets translation_scale_factor
      = Raise (AssertionError invalid_arguments))
  /\ (forall (z : Z) (self : FitterStepAlign),
         py_eq (PyInt z) (_scale self) = false ->
         setScale (PyInt z) self = (Ok true, with_scale (PyInt z) self))
  /\ (forall (dct : Dict.t pyval) (z : Z) (self self' : FitterStepAlign),
         Dict.get "scale" dct = Some (PyInt z) ->
         decodeSettingsJSONDict dct self = (Ok tt, self') ->
         _scale self' = PyInt z)
  /\ (forall optimise (w : world) coords l (z : Z),
         getModelCoordinatesField (fitter w) = Some coords ->
         truthy (_alignMarkers (self w)) = false ->
         _rotation (self w) = PyList l ->
         _scale (self w) = PyInt z ->
         run optimise w = (Raise (AssertionError invalid_arguments), w)).
Proof.
  split; [|split; [|split]].
  - apply integer_scale_invalid.
  - intros z self Hne. unfold setScale, mbind, get, py_ne. now rewrite Hne.
  - intros dct z self self' Hget.
    unfold decodeSettingsJSONDict, mbind, assert_, lift, subscript, modify, ret, raise.
    rewrite Hget.
    destruct (Dict.mem _jsonTypeId dct); [|discriminate].
    destruct (Dict.get "alignMarkers" dct); [|discriminate].
    destruct (Dict.get "rotation" dct); [|discriminate].
    destruct (Dict.get "translation" dct); [|discriminate].
    intros H. injection H as <-. reflexivity.
  - intros optimise w coords l z Hc Ha Hr Hs.
    unfold run, mbind, get, require. rewrite Hc. unfold ret. rewrite Ha.
    unfold lift. rewrite Hr, Hs.
    rewrite integer_scale_invalid; [reflexivity|].
    right. now exists l.
Qed.

Lemma integer_scale_rejected_witness :
  run idle_optimise integer_scale_world =
  (Raise (AssertionError invalid_arguments), integer_scale_world).
Proof.
  apply (proj2 (proj2 (proj2 integer_scale_rejected)) idle_optimise integer_scale_world
               unit_cube_corner [PyFloat 0; PyFloat 0; PyFloat 0] 2%Z);
    reflexivity.
Defined.

(** ** The transformation model *)

Lemma euler_rotation_matrix_entries (a0 a1 a2 : R) :
  euler_rotation_matrix [a0; a1; a2] =
  [ cos a0 * cos a1;
    cos a0 * sin a1 * sin a2 - sin a0 * cos a2;
    cos a0 * sin a1 * cos a2 + sin a0 * sin a2;
    sin a0 * cos a1;
    sin a0 * sin a1 * sin a2 + cos a0 * cos a2;
    sin a0 * sin a1 * cos a2 - cos a0 * sin a2;
    - sin a1;
    cos a1 * sin a2;
    cos a1 * cos a2 ]%R.
Proof.
  cbn. repeat (f_equal; try ring).
Qed.

Lemma transformation_value (coordinates : Field) (a0 a1 a2 s t0 t1 t2 f : R) :
  getNumberOfComponents coordinates = 3 ->
  exists tc,
    createFieldsTransformations coordinates (PyList (map PyFloat [a0; a1; a2]))
      (PyFloat s) (PyList (map PyFloat [t0; t1; t2])) f
    = Ok (tc, constant_field [a0; a1; a2], constant_field [s], constant_field [t0; t1; t2])
    /\ forall node, List.length (evaluate coordinates node) = 3 ->
         evaluate tc node =
         rotate_scale_translate [a0; a1; a2] s [t0; t1; t2] f (evaluate coordinates node).
Proof.
  intros Hn. unfold createFieldsTransformations. rewrite Hn.
  cbn -[Reqb euler_rotation_matrix Rmult Rplus].
  destruct (Reqb f 1) eqn:Hf; cbn -[euler_rotation_matrix]; rewrite Hn;
    cbn -[euler_rotation_matrix]; eexists; (split; [reflexivity|]);
    cbn -[euler_rotation_matrix]; intros node Hlen;
    destruct (evaluate coordinates node) as [|x [|y [|z [|]]]]; try discriminate;
    rewrite euler_rotation_matrix_entries; cbn.
  - apply Reqb_true in Hf. subst f.
    f_equal; [ring|]. f_equal; [ring|]. f_equal. ring.
  - f_equal; [ring|]. f_equal; [ring|]. f_equal. ring.
Qed.

Lemma identity_transform (p : list R) :
  List.length p = 3 ->
  rotate_scale_translate [0; 0; 0]%R 1 [0; 0; 0]%R 1 p = p.
Proof.
  intros Hlen. destruct p as [|x [|y [|z [|]]]]; try discriminate.
  unfold rotate_scale_translate. rewrite euler_rotation_matrix_entries.
  cbn. rewrite cos_0, sin_0.
  f_equal; [ring|]. f_equal; [ring|]. f_equal. ring.
Qed.

(** C4: on coordinates of 3 components, for rotation angles and a
    translation of length 3, any float scale and any translation scale
    factor, [createFieldsTransformations] succeeds and its first field has
    at every node the value scale * (R * p) + factor * translation, where p
    is the value of the coordinates there and R is the product of the
    rotation about z by angle 0, the rotation about y by angle 1 and the
    rotation about x by angle 2: rotate, then scale, then translate. *)
Theorem transformation_closed_form (coordinates : Field) (angles : list R) (s : R)
    (translation : list R) (f : R) :
  getNumberOfComponents coordinates = 3 ->
  List.length angles = 3 ->
  List.length translation = 3 ->
  euler_rotation_matrix angles =
    mat_mul (mat_mul (rot_z (nth 0 angles 0%R)) (rot_y (nth 1 angles 0%R)))
            (rot_x (nth 2 angles 0%R))
  /\ exists tc rotation scale tr,
       createFieldsTransformations coordinates (PyList (map PyFloat angles))
         (PyFloat s) (PyList (map PyFloat translation)) f
       = Ok (tc, rotation, scale, tr)
       /\ forall node, List.length (evaluate coordinates node) = 3 ->
            evaluate tc node =
            vadd (vscale s (mat_vec 3 3 (euler_rotation_matrix angles)
                                    (evaluate coordinates node)))
                 (vscale f translation).
Proof.
  intros Hn Ha Ht. split; [reflexivity|].
  destruct angles as [|a0 [|a1 [|a2 [|]]]]; try discriminate.
  destruct translation as [|t0 [|t1 [|t2 [|]]]]; try discriminate.
  destruct (transformation_value coordinates a0 a1 a2 s t0 t1 t2 f Hn) as [tc [Hok Hval]].
  exists tc. do 3 eexists. split; [exact Hok|].
  intros node Hlen. now apply Hval.
Qed.

Lemma transformation_closed_form_witness :
  exists tc rotation scale tr,
    createFieldsTransformations unit_cube_corner
      (PyList (map PyFloat [0; 0; 0]%R)) (PyFloat 2) (PyList (map PyFloat [5; 1; -3]%R)) 1
    = Ok (tc, rotation, scale, tr)
    /\ forall node, List.length (evaluate unit_cube_corner node) = 3 ->
         evaluate tc node =
         vadd (vscale 2 (mat_vec 3 3 (euler_rotation_matrix [0; 0; 0]%R)
                                 (evaluate unit_cube_corner node)))
              (vscale 1 [5; 1; -3]%R).
Proof.
  apply (transformation_closed_form unit_cube_corner [0; 0; 0]%R 2 [5; 1; -3]%R 1);
    reflexivity.
Defined.

(** C9: with zero rotation angles, scale 1.0, zero translation and
    translation scale factor 1.0 (given, or left to the defaults) the
    transformed coordinates have at every node the value of the
    coordinates. *)
Theorem identity_parameters_fix_coordinates (coordinates : Field) :
  getNumberOfComponents coordinates = 3 ->
  exists tc rotation scale tr,
    createFieldsTransformations coordinates zero_vector (PyFloat 1) zero_vector 1
    = Ok (tc, rotation, scale, tr)
    /\ createFieldsTransformations coordinates PyNone (PyFloat 1) PyNone 1
       = Ok (tc, rotation, scale, tr)
    /\ forall node, List.length (evaluate coordinates node) = 3 ->
         evaluate tc node = evaluate coordinates node.
Proof.
  intros Hn.
  destruct (transformation_value coordinates 0 0 0 1 0 0 0 1 Hn) as [tc [Hok Hval]].
  exists tc. do 3 eexists. split; [exact Hok|]. split; [exact Hok|].
  intros node Hlen. rewrite (Hval node Hlen). now apply identity_transform.
Qed.

Lemma identity_parameters_fix_coordinates_witness :
  exists tc rotation scale tr,
    createFieldsTransformations unit_cube_corner zero_vector (PyFloat 1) zero_vector 1
    = Ok (tc, rotation, scale, tr)
    /\ createFieldsTransformations unit_cube_corner PyNone (PyFloat 1) PyNone 1
       = Ok (tc, rotation, scale, tr)
    /\ forall node, List.length (evaluate unit_cube_corner node) = 3 ->
         evaluate tc node = evaluate unit_cube_corner node.
Proof.
  apply (identity_parameters_fix_coordinates unit_cube_corner). reflexivity.
Defined.

(** ** The sign of the scale *)

(** C5, as stated, fails: with scale 0.0 the construction succeeds, and
    the transformed coordinates are the zero translation at every node. *)
Lemma zero_scale_accepted :
  exists tc rotation scale tr,
    createFieldsTransformations unit_cube_corner zero_vector (PyFloat 0) zero_vector 1
    = Ok (tc, rotation, scale, tr)
    /\ forall node, evaluate tc node = [0; 0; 0]%R.
Proof.
  destruct (transformation_value unit_cube_corner 0 0 0 0 0 0 0 1 eq_refl)
    as [tc [Hok Hval]].
  exists tc. do 3 eexists. split; [exact Hok|].
  intros node. rewrite (Hval node eq_refl).
  unfold rotate_scale_translate. rewrite euler_rotation_matrix_entries. cbn.
  f_equal; [ring|]. f_equal; [ring|]. f_equal. ring.
Qed.

Lemma zero_scale_value (angles translation : list R) (f : R) (p : list R) :
  List.length angles = 3 -> List.length translation = 3 -> List.length p = 3 ->
  rotate_scale_translate angles 0 translation f p = vscale f translation.
Proof.
  intros Ha Ht Hp.
  destruct angles as [|a0 [|a1 [|a2 [|]]]]; try discriminate.
  destruct translation as [|t0 [|t1 [|t2 [|]]]]; try discriminate.
  destruct p as [|x [|y [|z [|]]]]; try discriminate.
  unfold rotate_scale_translate. rewrite euler_rotation_matrix_entries. cbn.
  f_equal; [ring|]. f_equal; [ring|]. f_equal. ring.
Qed.

Lemma scale_must_be_float (coordinates : Field) (rotation_angles v translation_offsets : pyval)
    (f : R) :
  isinstance_float v = false ->
  (rotation_angles = PyNone \/ exists l, rotation_angles = PyList l) ->
  createFieldsTransformations coordinates rotation_angles v translation_offsets f
  = Raise (AssertionError invalid_arguments).
Proof.
  intros Hfloat Hrot.
  assert (Hvalid : forall n l t, arguments_valid n (PyList l) v t = Ok false).
  { intros n l t. unfold arguments_valid.
    destruct (Nat.eqb n 3); [|reflexivity].
    cbn [py_len bind]. destruct (Nat.eqb (List.length l) n); [|reflexivity].
    now rewrite Hfloat. }
  destruct Hrot as [-> | [l ->]]; unfold createFieldsTransformations; cbv zeta;
    unfold zero_vector; now rewrite Hvalid.
Qed.

(** C5, amended: the sign of the scale is not looked at.  On valid other
    arguments the construction succeeds for every float scale, zero and
    negative ones too: the scale field holds the value given and the
    transformed coordinates are scale * (R * p) + factor * translation, so
    that with scale 0.0 every node has the value factor * translation.
    The only check on the scale is that it is a float: every other value
    fails the argument assertion.  And [setScale] looks at no sign either:
    it stores every value that differs from the stored one and returns
    True, and otherwise returns False; it never raises. *)
Theorem scale_sign_not_checked (coordinates : Field) (angles translation : list R)
    (f : R) :
  getNumberOfComponents coordinates = 3 ->
  List.length angles = 3 ->
  List.length translation = 3 ->
  (forall s : R, exists tc,
      createFieldsTransformations coordinates (PyList (map PyFloat angles))
        (PyFloat s) (PyList (map PyFloat translation)) f
      = Ok (tc, constant_field angles, constant_field [s], constant_field translation)
      /\ forall node, List.length (evaluate coordinates node) = 3 ->
           evaluate tc node =
           vadd (vscale s (mat_vec 3 3 (euler_rotation_matrix angles)
                                   (evaluate coordinates node)))
                (vscale f translation))
  /\ (exists tc,
        createFieldsTransformations coordinates (PyList (map PyFloat angles))
          (PyFloat 0) (PyList (map PyFloat translation)) f
        = Ok (tc, constant_field angles, constant_field [0%R], constant_field translation)
        /\ forall node, List.length (evaluate coordinates node) = 3 ->
             evaluate tc node = vscale f translation)
  /\ (forall v : pyval,
        isinstance_float v = false ->
        createFieldsTransformations coordinates (PyList (map PyFloat angles))
          v (PyList (map PyFloat translation)) f
        = Raise (AssertionError invalid_arguments))
  /\ (forall (v : pyval) (self : FitterStepAlign),
        setScale v self =
        if py_eq v (_scale self) then (Ok false, self)
        else (Ok true, with_scale v self)).
Proof.
  intros Hn Ha Ht.
  assert (Hfloat : forall s : R, exists tc,
             createFieldsTransformations coordinates (PyList (map PyFloat angles))
               (PyFloat s) (PyList (map PyFloat translation)) f
             = Ok (tc, constant_field angles, constant_field [s], constant_field translation)
             /\ forall node, List.length (evaluate coordinates node) = 3 ->
                  evaluate tc node =
                  rotate_scale_translate angles s translation f (evaluate coordinates node)).
  { intros s.
    destruct angles as [|a0 [|a1 [|a2 [|]]]]; try discriminate.
    destruct translation as [|t0 [|t1 [|t2 [|]]]]; try discriminate.
    exact (transformation_value coordinates a0 a1 a2 s t0 t1 t2 f Hn). }
  split; [|split; [|split]].
  - exact Hfloat.
  - destruct (Hfloat 0%R) as [tc [Hok Hval]].
    exists tc. split; [exact Hok|].
    intros node Hlen. rewrite (Hval node Hlen). now apply zero_scale_value.
  - intros v Hv. apply scale_must_be_float; [exact Hv|].
    right. now eexists.
  - intros v self. unfold setScale, mbind, get, modify, ret, py_ne.
    destruct (py_eq v (_scale self)); reflexivity.
Qed.

Lemma scale_sign_not_checked_witness :
  exists tc,
    createFieldsTransformations unit_cube_corner (PyList (map PyFloat [0; 0; 0]%R))
      (PyFloat (-1)) (PyList (map PyFloat [5; 1; -3]%R)) 1
    = Ok (tc, constant_field [0; 0; 0]%R, constant_field [(-1)%R],
          constant_field [5; 1; -3]%R)
    /\ forall node, List.length (evaluate unit_cube_corner node) = 3 ->
         evaluate tc node =
         vadd (vscale (-1) (mat_vec 3 3 (euler_rotation_matrix [0; 0; 0]%R)
                                    (evaluate unit_cube_corner node)))
              (vscale 1 [5; 1; -3]%R).
Proof.
  apply (proj1 (scale_sign_not_checked unit_cube_corner [0; 0; 0]%R [5; 1; -3]%R 1
                  eq_refl eq_refl eq_refl) (-1)%R).
Defined.

(** ** Dicts *)

Lemma get_set_same {V} (k : string) (v : V) (d : Dict.t V) :
  Dict.get k (Dict.set k v d) = Some v.
Proof.
  induction d as [|[k' v'] d IH]; cbn.
  - now rewrite String.eqb_refl.
  - destruct (String.eqb k' k) eqn:E; cbn; now rewrite E.
Qed.

Lemma get_set_other {V} (k k' : string) (v : V) (d : Dict.t V) :
  k <> k' -> Dict.get k (Dict.set k' v d) = Dict.get k d.
Proof.
  intros Hne. induction d as [|[k0 v0] d IH]; cbn.
  - destruct (String.eqb k' k) eqn:E; [|reflexivity].
    apply String.eqb_eq in E. congruence.
  - destruct (String.eqb k0 k') eqn:E; cbn.
    + apply String.eqb_eq in E. subst k0.
      destruct (String.eqb k' k) eqn:E'; [|reflexivity].
      apply String.eqb_eq in E'. congruence.
    + now rewrite IH.
Qed.

Lemma get_app_skip {V} (k : string) (d1 d2 : Dict.t V) :
  (forall e, In e d1 -> fst e <> k) ->
  Dict.get k (d1 ++ d2) = Dict.get k d2.
Proof.
  induction d1 as [|[k' v'] d1 IH]; intros Hskip; cbn; [reflexivity|].
  destruct (String.eqb k' k) eqn:E.
  - apply String.eqb_eq in E. exfalso. apply (Hskip (k', v')); [now left | exact E].
  - apply IH. intros e He. apply Hskip. now right.
Qed.

Lemma get_in_keys {V} (k : string) (d : Dict.t V) :
  In k (Dict.keys d) -> exists v, Dict.get k d = Some v.
Proof.
  induction d as [|[k' v'] d IH]; cbn; [tauto|].
  intros Hin. destruct (String.eqb k' k) eqn:E; [now exists v'|].
  destruct Hin as [Heq | Hin]; [|now apply IH].
  apply String.eqb_neq in E. congruence.
Qed.

Lemma find_hd_filter {A} (p : A -> bool) (l : list A) :
  find p l = hd_error (filter p l).
Proof.
  induction l as [|a l IH]; cbn; [reflexivity|]. now destruct (p a).
Qed.

Lemma filter_pop (target dataName : string) (d : Dict.t Point) :
  matchName_of dataName <> target ->
  filter (matches target) (Dict.pop dataName d) = filter (matches target) d.
Proof.
  intros Hne. induction d as [|[k v] d IH]; cbn; [reflexivity|].
  destruct (String.eqb k dataName) eqn:E.
  - apply String.eqb_eq in E. subst k.
    unfold matches at 2. cbn [fst].
    destruct (String.eqb (matchName_of dataName) target) eqn:E'; [|reflexivity].
    apply String.eqb_eq in E'. congruence.
  - cbn. now rewrite IH.
Qed.

(** ** The inner loop finds the first data entry of the name *)

Lemma search_data_from (writeDiagnostics : bool) (modelMarkers : Dict.t Point)
    (modelName : string) (modelPoint : Point) (target : string) (m : matching) :
  Dict.get modelName modelMarkers = Some modelPoint ->
  forall d2 d1 : Dict.t Point,
    dataMarkers m = d1 ++ d2 ->
    (forall e, In e d1 -> matches target e = false) ->
    search_data writeDiagnostics modelMarkers modelName target (Dict.keys d2) m =
    Ok (match find (matches target) d2 with
        | Some (dataName, dataPoint) =>
            paired writeDiagnostics modelName modelPoint dataName dataPoint m
        | None =>
            if writeDiagnostics then print (not_in_data_message modelName) m else m
        end).
Proof.
  intros Hmodel. induction d2 as [|[k v] d2 IH]; intros d1 Hsplit Hskip; cbn.
  - reflexivity.
  - unfold matches at 1. cbn.
    destruct (String.eqb (matchName_of k) target) eqn:E.
    + unfold subscript. rewrite Hmodel. cbn.
      rewrite Hsplit, get_app_skip.
      * cbn. rewrite String.eqb_refl. cbn. unfold paired, print.
        rewrite Hsplit. destruct writeDiagnostics; reflexivity.
      * intros e He <-. specialize (Hskip e He). unfold matches in Hskip. congruence.
    + apply (IH (d1 ++ [(k, v)])).
      * now rewrite <- app_assoc.
      * intros e He. apply in_app_or in He. destruct He as [He | [<- | []]].
        -- now apply Hskip.
        -- exact E.
Qed.

Lemma search_data_find (writeDiagnostics : bool) (modelMarkers : Dict.t Point)
    (modelName : string) (modelPoint : Point) (m : matching) :
  Dict.get modelName modelMarkers = Some modelPoint ->
  search_data writeDiagnostics modelMarkers modelName (matchName_of modelName)
    (Dict.keys (dataMarkers m)) m =
  Ok (match find (matches (matchName_of modelName)) (dataMarkers m) with
      | Some (dataName, dataPoint) =>
          paired writeDiagnostics modelName modelPoint dataName dataPoint m
      | None =>
          if writeDiagnostics then print (not_in_data_message modelName) m else m
      end).
Proof.
  intros Hmodel.
  apply (search_data_from writeDiagnostics modelMarkers modelName modelPoint
           (matchName_of modelName) m Hmodel (dataMarkers m) []); [reflexivity|].
  intros e [].
Qed.

(** ** The outer loop *)

Lemma match_loop_app (writeDiagnostics : bool) (modelMarkers : Dict.t Point)
    (names1 names2 : list string) (m : matching) :
  match_loop writeDiagnostics modelMarkers (names1 ++ names2) m =
  (m' <- match_loop writeDiagnostics modelMarkers names1 m ;;
   match_loop writeDiagnostics modelMarkers names2 m').
Proof.
  revert m. induction names1 as [|n names1 IH]; intros m; cbn; [reflexivity|].
  destruct (search_data writeDiagnostics modelMarkers n (matchName_of n)
              (Dict.keys (dataMarkers m)) m) as [m'|e]; cbn; [apply IH | reflexivity].
Qed.

(** One step of the outer loop, for a name the model dict holds. *)
Lemma match_step (writeDiagnostics : bool) (modelMarkers : Dict.t Point)
    (modelName : string) (m : matching) :
  In modelName (Dict.keys modelMarkers) ->
  exists m',
    search_data writeDiagnostics modelMarkers modelName (matchName_of modelName)
      (Dict.keys (dataMarkers m)) m = Ok m'
    /\ (forall name, name <> modelName ->
          Dict.get name (markerMap m') = Dict.get name (markerMap m))
    /\ (forall target, matchName_of modelName <> target ->
          filter (matches target) (dataMarkers m') =
          filter (matches target) (dataMarkers m)).
Proof.
  intros Hin. destruct (get_in_keys _ _ Hin) as [modelPoint Hget].
  rewrite (search_data_find writeDiagnostics modelMarkers modelName modelPoint m Hget).
  eexists. split; [reflexivity|].
  destruct (find (matches (matchName_of modelName)) (dataMarkers m))
    as [[dataName dataPoint]|] eqn:Hfind.
  - apply find_some in Hfind. destruct Hfind as [_ Hmatch].
    unfold matches in Hmatch. cbn [fst] in Hmatch. apply String.eqb_eq in Hmatch.
    split.
    + intros name Hne. cbn. now apply get_set_other.
    + intros target Hne. cbn. destruct writeDiagnostics; [|reflexivity].
      apply filter_pop. congruence.
  - split; intros; destruct writeDiagnostics; reflexivity.
Qed.

(** Model markers of other normalized names leave the data entries of the
    name [target] in place. *)
Lemma match_loop_keeps_candidates (writeDiagnostics : bool) (modelMarkers : Dict.t Point)
    (target : string) (names : list string) :
  (forall n, In n names -> In n (Dict.keys modelMarkers) /\ matchName_of n <> target) ->
  forall m, exists m',
    match_loop writeDiagnostics modelMarkers names m = Ok m'
    /\ filter (matches target) (dataMarkers m') = filter (matches target) (dataMarkers m).
Proof.
  induction names as [|n names IH]; intros Hnames m; cbn.
  - now exists m.
  - destruct (Hnames n (or_introl eq_refl)) as [Hin Hne].
    destruct (match_step writeDiagnostics modelMarkers n m Hin) as [m1 [Hstep [_ Hkeep]]].
    rewrite Hstep. cbn.
    destruct (IH (fun n' Hn' => Hnames n' (or_intror Hn')) m1) as [m' [Hloop Hfilter]].
    exists m'. split; [exact Hloop|].
    rewrite Hfilter. now apply Hkeep.
Qed.

(** Model markers of other names leave the pair recorded for [modelName]
    as it is. *)
Lemma match_loop_keeps_pair (writeDiagnostics : bool) (modelMarkers : Dict.t Point)
    (modelName : string) (names : list string) :
  (forall n, In n names -> In n (Dict.keys modelMarkers) /\ n <> modelName) ->
  forall m, exists m',
    match_loop writeDiagnostics modelMarkers names m = Ok m'
    /\ Dict.get modelName (markerMap m') = Dict.get modelName (markerMap m).
Proof.
  induction names as [|n names IH]; intros Hnames m; cbn.
  - now exists m.
  - destruct (Hnames n (or_introl eq_refl)) as [Hin Hne].
    destruct (match_step writeDiagnostics modelMarkers n m Hin) as [m1 [Hstep [Hkeep _]]].
    rewrite Hstep. cbn.
    destruct (IH (fun n' Hn' => Hnames n' (or_intror Hn')) m1) as [m' [Hloop Hget]].
    exists m'. split; [exact Hloop|].
    rewrite Hget. apply Hkeep. congruence.
Qed.

Lemma report_keeps_markerMap (names : list string) (m : matching) :
  markerMap (fold_left (fun acc dataName => print (not_in_model_message dataName) acc)
                       names m) = markerMap m.
Proof.
  revert m. induction names as [|n names IH]; intros m; cbn; [reflexivity|].
  now rewrite IH.
Qed.

Lemma match_loop_total (writeDiagnostics : bool) (modelMarkers : Dict.t Point)
    (names : list string) :
  (forall n, In n names -> In n (Dict.keys modelMarkers)) ->
  forall m, exists m', match_loop writeDiagnostics modelMarkers names m = Ok m'.
Proof.
  induction names as [|n names IH]; intros Hnames m; cbn.
  - now exists m.
  - destruct (match_step writeDiagnostics modelMarkers n m (Hnames n (or_introl eq_refl)))
      as [m1 [Hstep _]].
    rewrite Hstep. cbn. apply IH. intros n' Hn'. apply Hnames. now right.
Qed.

(** The matcher returns for every pair of dicts: no lookup of the two
    loops can miss its key. *)
Lemma match_markers_total (writeDiagnostics : bool) (modelMarkers dataMarkers0 : Dict.t Point) :
  exists m, match_markers writeDiagnostics modelMarkers dataMarkers0 = Ok m.
Proof.
  unfold match_markers.
  destruct (match_loop_total writeDiagnostics modelMarkers (Dict.keys modelMarkers)
              (fun n Hn => Hn) (mkMatching [] dataMarkers0 [])) as [m Hloop].
  rewrite Hloop. cbn. eexists. reflexivity.
Qed.

Lemma find_first {A} (p : A -> bool) (skipped rest : list A) (x : A) :
  (forall e, In e skipped -> p e = false) ->
  p x = true ->
  find p (skipped ++ x :: rest) = Some x.
Proof.
  intros Hskip Hx. induction skipped as [|e skipped IH]; cbn.
  - now rewrite Hx.
  - rewrite (Hskip e (or_introl eq_refl)). apply IH.
    intros e' He'. apply Hskip. now right.
Qed.

Lemma matches_false (target : string) (e : string * Point) :
  matchName_of (fst e) <> target -> matches target e = false.
Proof.
  intros Hne. unfold matches. now apply String.eqb_neq.
Qed.

(** C8, amended: names are compared stripped and case-folded, and a model
    marker is paired with the first entry of the data dict, in its
    enumeration order, whose name compares equal, provided that no model
    marker enumerated before it has the same stripped and case-folded name
    (such a marker may have consumed that entry).  Here the data dict is
    [skipped ++ (dataName, dataPoint) :: rest], no name of [skipped]
    comparing equal to the model name. *)
Theorem first_match_in_data_order (writeDiagnostics : bool)
    (before after : Dict.t Point) (modelName : string) (modelPoint : Point)
    (skipped rest : Dict.t Point) (dataName : string) (dataPoint : Point) :
  Dict.wf (before ++ (modelName, modelPoint) :: after) ->
  (forall e, In e before -> matchName_of (fst e) <> matchName_of modelName) ->
  matchName_of dataName = matchName_of modelName ->
  (forall e, In e skipped -> matchName_of (fst e) <> matchName_of modelName) ->
  exists m,
    match_markers writeDiagnostics (before ++ (modelName, modelPoint) :: after)
      (skipped ++ (dataName, dataPoint) :: rest) = Ok m
    /\ Dict.get modelName (markerMap m) = Some (modelPoint, dataPoint).
Proof.
  intros Hwf Hbefore Hname Hskipped.
  set (modelMarkers := before ++ (modelName, modelPoint) :: after).
  set (dataMarkers0 := skipped ++ (dataName, dataPoint) :: rest).
  set (target := matchName_of modelName).
  assert (Hkeys : Dict.keys modelMarkers
                  = Dict.keys before ++ modelName :: Dict.keys after).
  { unfold modelMarkers, Dict.keys. now rewrite map_app. }
  assert (Hmodel : Dict.get modelName modelMarkers = Some modelPoint).
  { unfold modelMarkers. rewrite get_app_skip.
    - cbn. now rewrite String.eqb_refl.
    - intros e He Heq. apply (Hbefore e He). now rewrite Heq. }
  (* the markers enumerated before *)
  destruct (match_loop_keeps_candidates writeDiagnostics modelMarkers target
              (Dict.keys before)) with (m := mkMatching [] dataMarkers0 [])
    as [m1 [Hloop1 Hfilter]].
  { intros n Hn. split.
    - rewrite Hkeys. apply in_or_app. now left.
    - unfold Dict.keys in Hn. apply in_map_iff in Hn. destruct Hn as [e [<- He]].
      now apply Hbefore. }
  (* the marker itself *)
  assert (Hfind : find (matches target) (dataMarkers m1) = Some (dataName, dataPoint)).
  { rewrite find_hd_filter, Hfilter, <- find_hd_filter. cbn [dataMarkers].
    apply find_first.
    - intros e He. apply matches_false. now apply Hskipped.
    - unfold matches. cbn [fst]. now apply String.eqb_eq. }
  pose proof (search_data_find writeDiagnostics modelMarkers modelName modelPoint m1 Hmodel)
    as Hstep.
  fold target in Hstep. rewrite Hfind in Hstep.
  (* the markers enumerated after *)
  destruct (match_loop_keeps_pair writeDiagnostics modelMarkers modelName
              (Dict.keys after))
    with (m := paired writeDiagnostics modelName modelPoint dataName dataPoint m1)
    as [m2 [Hloop2 Hget]].
  { intros n Hn. split.
    - rewrite Hkeys. apply in_or_app. right. now right.
    - intros ->. unfold Dict.wf in Hwf. fold modelMarkers in Hwf. rewrite Hkeys in Hwf.
      apply NoDup_remove_2 in Hwf. apply Hwf. apply in_or_app. now right. }
  unfold match_markers. rewrite Hkeys, match_loop_app, Hloop1. cbn [bind match_loop].
  fold target. rewrite Hstep. cbn [bind]. rewrite Hloop2. cbn [bind].
  eexists. split; [reflexivity|].
  destruct writeDiagnostics; [rewrite report_keeps_markerMap|]; rewrite Hget;
    cbn; apply get_set_same.
Qed.

Lemma first_match_in_data_order_witness :
  exists m,
    match_markers true ([] ++ ("Apex", [0; 0; 0]%R) :: [("Base", [1; 0; 0]%R)])
      ([("base", [7; 7; 7]%R)] ++ (" apex ", [5; 5; 5]%R) :: [("APEX", [6; 6; 6]%R)]) = Ok m
    /\ Dict.get "Apex" (markerMap m) = Some ([0; 0; 0]%R, [5; 5; 5]%R).
Proof.
  apply (first_match_in_data_order true [] [("Base", [1; 0; 0]%R)] "Apex" [0; 0; 0]%R
           [("base", [7; 7; 7]%R)] [("APEX", [6; 6; 6]%R)] " apex " [5; 5; 5]%R).
  - unfold Dict.wf. cbn. repeat constructor; cbn; intuition discriminate.
  - intros e [].
  - reflexivity.
  - intros e [<- | []]. vm_compute. discriminate.
Defined.

(** C8, as stated, fails: with diagnostics on, the model marker 'apex '
    and the data marker 'APEX' are equal once stripped and case-folded,
    yet the matcher leaves 'apex ' unpaired, the entry having gone to the
    model marker 'Apex' before. *)
Lemma equal_names_left_unpaired :
  matchName_of "apex " = matchName_of "APEX"
  /\ Dict.get "APEX" single_apex_data = Some [5; 5; 5]%R
  /\ exists m,
       match_markers true apex_model single_apex_data = Ok m
       /\ Dict.get "apex " (markerMap m) = None.
Proof.
  split; [reflexivity|]. split; [reflexivity|].
  eexists. split; reflexivity.
Qed.

(** ** The diagnostic level and the consumption of data markers *)

(** C1, on the code: the same model and data markers matched at diagnostic
    level 0 and at level 1 give two different marker maps.  At level 0 the
    data entry 'APEX' stays in the dict and is paired with both model
    markers; at level 1 it is popped after the first pairing, and the
    second model marker gets the entry 'apex'. *)
Theorem diagnostic_level_changes_marker_map :
  match_markers (Z.ltb 0 0) apex_model apex_data =
    Ok (mkMatching
          [("Apex", ([0; 0; 0]%R, [5; 5; 5]%R)); ("apex ", ([1; 0; 0]%R, [5; 5; 5]%R))]
          apex_data [])
  /\ match_markers (Z.ltb 0 1) apex_model apex_data =
       Ok (mkMatching
             [("Apex", ([0; 0; 0]%R, [5; 5; 5]%R)); ("apex ", ([1; 0; 0]%R, [6; 6; 6]%R))]
             []
             ["Align:  Model marker 'Apex' found in data as 'APEX'";
              "Align:  Model marker 'apex ' found in data as 'apex'"])
  /\ [("Apex", ([0; 0; 0]%R, [5; 5; 5]%R)); ("apex ", ([1; 0; 0]%R, [5; 5; 5]%R))]
     <> [("Apex", ([0; 0; 0]%R, [5; 5; 5]%R)); ("apex ", ([1; 0; 0]%R, [6; 6; 6]%R))].
Proof.
  split; [reflexivity|]. split; [reflexivity|].
  intros Heq. injection Heq as E. lra.
Qed.

(** C2, on the code: without diagnostics the single data entry 'APEX' is
    paired with both model markers and is still in the dict when the
    matching ends; with diagnostics it is popped at the first pairing and
    the second model marker finds nothing. *)
Theorem data_marker_matched_twice_without_diagnostics :
  match_markers false apex_model single_apex_data =
    Ok (mkMatching
          [("Apex", ([0; 0; 0]%R, [5; 5; 5]%R)); ("apex ", ([1; 0; 0]%R, [5; 5; 5]%R))]
          single_apex_data [])
  /\ match_markers true apex_model single_apex_data =
       Ok (mkMatching
             [("Apex", ([0; 0; 0]%R, [5; 5; 5]%R))]
             []
             ["Align:  Model marker 'Apex' found in data as 'APEX'";
              "Align:  Model marker 'apex ' not found in data"]).
Proof.
  split; reflexivity.
Qed.

(** With diagnostics on, a pairing takes its data entry out of the dict:
    the pairs made and the data entries left add up to the data entries
    given, so that no entry is paired twice. *)

Lemma length_set_fresh {V} (k : string) (v : V) (d : Dict.t V) :
  Dict.get k d = None -> List.length (Dict.set k v d) = S (List.length d).
Proof.
  induction d as [|[k' v'] d IH]; cbn; [reflexivity|].
  destruct (String.eqb k' k); [discriminate|].
  intros Hnone. cbn. now rewrite IH.
Qed.

Lemma length_pop_present {V} (k : string) (v : V) (d : Dict.t V) :
  In (k, v) d -> S (List.length (Dict.pop k d)) = List.length d.
Proof.
  induction d as [|[k' v'] d IH]; cbn; [tauto|].
  intros Hin. destruct (String.eqb k' k) eqn:E; [reflexivity|].
  destruct Hin as [Heq | Hin].
  - injection Heq as -> _. now rewrite String.eqb_refl in E.
  - cbn. now rewrite IH.
Qed.

Lemma match_loop_consumes (modelMarkers : Dict.t Point) (names : list string) :
  NoDup names ->
  (forall n, In n names -> In n (Dict.keys modelMarkers)) ->
  forall m,
    (forall n, In n names -> Dict.get n (markerMap m) = None) ->
    exists m',
      match_loop true modelMarkers names m = Ok m'
      /\ List.length (markerMap m') + List.length (dataMarkers m')
         = List.length (markerMap m) + List.length (dataMarkers m).
Proof.
  induction names as [|n names IH]; intros Hnodup Hnames m Hfresh; cbn.
  - now exists m.
  - destruct (get_in_keys _ _ (Hnames n (or_introl eq_refl))) as [modelPoint Hget].
    rewrite (search_data_find true modelMarkers n modelPoint m Hget). cbn [bind].
    inversion Hnodup as [|? ? Hnotin Hnodup']; subst.
    destruct (find (matches (matchName_of n)) (dataMarkers m))
      as [[dataName dataPoint]|] eqn:Hfind.
    + apply find_some in Hfind. destruct Hfind as [Hin _].
      destruct (IH Hnodup' (fun n' Hn' => Hnames n' (or_intror Hn'))
                  (paired true n modelPoint dataName dataPoint m)) as [m' [Hloop Hcount]].
      * intros n' Hn'. cbn. rewrite get_set_other.
        -- apply Hfresh. now right.
        -- intros ->. contradiction.
      * exists m'. split; [exact Hloop|]. rewrite Hcount. cbn.
        rewrite length_set_fresh by (apply Hfresh; now left).
        rewrite <- (length_pop_present dataName dataPoint (dataMarkers m) Hin). lia.
    + destruct (IH Hnodup' (fun n' Hn' => Hnames n' (or_intror Hn'))
                  (print (not_in_data_message n) m)) as [m' [Hloop Hcount]].
      * intros n' Hn'. cbn. apply Hfresh. now right.
      * exists m'. split; [exact Hloop|]. exact Hcount.
Qed.

Lemma report_keeps_dataMarkers (names : list string) (m : matching) :
  dataMarkers (fold_left (fun acc dataName => print (not_in_model_message dataName) acc)
                         names m) = dataMarkers m.
Proof.
  revert m. induction names as [|n names IH]; intros m; cbn; [reflexivity|].
  now rewrite IH.
Qed.

(** X9: with diagnostics on and model marker names that are pairwise
    distinct, the pairs of the marker map and the data markers left in the
    dict add up to the data markers given: every pairing has taken its
    own entry out of the dict. *)
Lemma diagnostics_consume_data_markers (modelMarkers dataMarkers0 : Dict.t Point) :
  Dict.wf modelMarkers ->
  exists m,
    match_markers true modelMarkers dataMarkers0 = Ok m
    /\ List.length (markerMap m) + List.length (dataMarkers m) = List.length dataMarkers0.
Proof.
  intros Hwf. unfold match_markers.
  destruct (match_loop_consumes modelMarkers (Dict.keys modelMarkers) Hwf
              (fun n Hn => Hn) (mkMatching [] dataMarkers0 [])) as [m [Hloop Hcount]].
  - reflexivity.
  - rewrite Hloop. cbn [bind]. eexists. split; [reflexivity|].
    now rewrite report_keeps_markerMap, report_keeps_dataMarkers.
Qed.

(** * Further properties of the code *)

(** ** Decoding settings *)

(** X1: decoding is not atomic.  With the type tag present, the first of
    the four keys that is missing raises KeyError for that key, and the
    settings read before it have already been stored. *)
Theorem decode_stops_at_missing_key (dct : Dict.t pyval) (self : FitterStepAlign) :
  Dict.mem _jsonTypeId dct = true ->
  (Dict.get "alignMarkers" dct = None ->
   decodeSettingsJSONDict dct self = (Raise (KeyError "alignMarkers"), self))
  /\ (forall a,
        Dict.get "alignMarkers" dct = Some a ->
        Dict.get "rotation" dct = None ->
        decodeSettingsJSONDict dct self =
        (Raise (KeyError "rotation"), with_alignMarkers a self))
  /\ (forall a r,
        Dict.get "alignMarkers" dct = Some a ->
        Dict.get "rotation" dct = Some r ->
        Dict.get "scale" dct = None ->
        decodeSettingsJSONDict dct self =
        (Raise (KeyError "scale"), with_rotation r (with_alignMarkers a self)))
  /\ (forall a r s,
        Dict.get "alignMarkers" dct = Some a ->
        Dict.get "rotation" dct = Some r ->
        Dict.get "scale" dct = Some s ->
        Dict.get "translation" dct = None ->
        decodeSettingsJSONDict dct self =
        (Raise (KeyError "translation"),
         with_scale s (with_rotation r (with_alignMarkers a self)))).
Proof.
  intros Htag.
  unfold decodeSettingsJSONDict, mbind, assert_, lift, subscript, modify, ret.
  rewrite Htag.
  split; [|split; [|split]].
  - intros Ha. now rewrite Ha.
  - intros a Ha Hr. now rewrite Ha, Hr.
  - intros a r Ha Hr Hs. now rewrite Ha, Hr, Hs.
  - intros a r s0 Ha Hr Hs Ht. now rewrite Ha, Hr, Hs, Ht.
Qed.

Lemma decode_stops_at_missing_key_witness :
  decodeSettingsJSONDict settings_without_rotation init =
  (Raise (KeyError "rotation"), with_alignMarkers (PyBool true) init).
Proof.
  apply (proj1 (proj2 (decode_stops_at_missing_key settings_without_rotation init eq_refl))
           (PyBool true)); reflexivity.
Defined.

(** X2: a dict that holds the type tag and the four keys decodes into any
    step, whatever else it holds and whatever the value of the tag; the
    four values are stored as they are, the has-run flag of the step is
    kept, and encoding the step gives the five settings in their fixed
    order with the tag True. *)
Theorem decode_then_encode_is_canonical (dct : Dict.t pyval) (self : FitterStepAlign)
    (a r s t : pyval) :
  Dict.mem _jsonTypeId dct = true ->
  Dict.get "alignMarkers" dct = Some a ->
  Dict.get "rotation" dct = Some r ->
  Dict.get "scale" dct = Some s ->
  Dict.get "translation" dct = Some t ->
  decodeSettingsJSONDict dct self = (Ok tt, mkStep a r s t (_hasRun self))
  /\ encodeSettingsJSONDict (mkStep a r s t (_hasRun self)) =
     [(_jsonTypeId, PyBool true); ("alignMarkers", a); ("rotation", r);
      ("scale", s); ("translation", t)].
Proof.
  intros Htag Ha Hr Hs Ht. split; [|reflexivity].
  unfold decodeSettingsJSONDict, mbind, assert_, lift, subscript, modify, ret.
  now rewrite Htag, Ha, Hr, Hs, Ht.
Qed.

Lemma decode_then_encode_is_canonical_witness :
  decodeSettingsJSONDict settings_with_comment init =
    (Ok tt, mkStep (PyBool false) (floats [0; 0; 0]%R) (PyFloat 2)
                   (floats [5; 1; -3]%R) (_hasRun init))
  /\ encodeSettingsJSONDict
       (mkStep (PyBool false) (floats [0; 0; 0]%R) (PyFloat 2)
               (floats [5; 1; -3]%R) (_hasRun init)) =
     [(_jsonTypeId, PyBool true); ("alignMarkers", PyBool false);
      ("rotation", floats [0; 0; 0]%R); ("scale", PyFloat 2);
      ("translation", floats [5; 1; -3]%R)].
Proof.
  apply (decode_then_encode_is_canonical settings_with_comment init); reflexivity.
Defined.

(** ** Setters, again *)

(** X4: rotation and translation must have length 3.  A list of any other
    length is refused with the setter's assertion message, a value without
    a length (None, a bool or a number) raises TypeError at [len], and in
    both cases the step is left as it is. *)
Theorem setters_check_length (self : FitterStepAlign) :
  (forall l : list pyval,
      List.length l <> 3 ->
      setRotation (PyList l) self =
        (Raise (AssertionError "FitterStepAlign:  Invalid rotation"), self)
      /\ setTranslation (PyList l) self =
           (Raise (AssertionError "FitterStepAlign:  Invalid translation"), self))
  /\ (forall v : pyval,
         py_len v = Raise TypeError ->
         setRotation v self = (Raise TypeError, self)
         /\ setTranslation v self = (Raise TypeError, self)).
Proof.
  split.
  - intros l Hlen. apply Nat.eqb_neq in Hlen.
    unfold setRotation, setTranslation, mbind, lift, assert_, raise.
    cbn [py_len]. now rewrite Hlen.
  - intros v Hlen.
    unfold setRotation, setTranslation, mbind, lift. now rewrite Hlen.
Qed.

Lemma setters_check_length_witness :
  setRotation (PyList [PyFloat 0; PyFloat 0]) init =
    (Raise (AssertionError "FitterStepAlign:  Invalid rotation"), init)
  /\ setTranslation (PyList [PyFloat 0; PyFloat 0]) init =
       (Raise (AssertionError "FitterStepAlign:  Invalid translation"), init).
Proof.
  apply (proj1 (setters_check_length init) [PyFloat 0; PyFloat 0]).
  cbn. lia.
Defined.

(** ** The arguments of createFieldsTransformations *)

(** X5: the argument assertion.  Coordinates that do not have 3 components
    are refused whatever the other arguments are, without their length
    being taken; on 3 components a rotation list or, behind a rotation
    list of length 3 and a float scale, a translation list of another
    length is refused. *)
Theorem transformation_arguments_checked (coordinates : Field)
    (rotation_angles scale translation_offsets : pyval) (factor : R) :
  (getNumberOfComponents coordinates <> 3 ->
   createFieldsTransformations coordinates rotation_angles scale translation_offsets factor
   = Raise (AssertionError invalid_arguments))
  /\ (forall l,
         rotation_angles = PyList l -> List.length l <> 3 ->
         createFieldsTransformations coordinates rotation_angles scale
           translation_offsets factor
         = Raise (AssertionError invalid_arguments))
  /\ (forall l x t,
         getNumberOfComponents coordinates = 3 ->
         rotation_angles = PyList l -> List.length l = 3 ->
         scale = PyFloat x ->
         translation_offsets = PyList t -> List.length t <> 3 ->
         createFieldsTransformations coordinates rotation_angles scale
           translation_offsets factor
         = Raise (AssertionError invalid_arguments)).
Proof.
  split; [|split].
  - intros Hn. apply Nat.eqb_neq in Hn.
    unfold createFieldsTransformations, arguments_valid. cbv zeta. now rewrite Hn.
  - intros l -> Hlen.
    unfold createFieldsTransformations, arguments_valid. cbv zeta.
    destruct (Nat.eqb (getNumberOfComponents coordinates) 3) eqn:Hn; [|reflexivity].
    apply Nat.eqb_eq in Hn. rewrite Hn. apply Nat.eqb_neq in Hlen.
    cbn [py_len bind]. now rewrite Hlen.
  - intros l x t Hn -> Hl -> -> Ht. apply Nat.eqb_neq in Ht.
    unfold createFieldsTransformations, arguments_valid. cbv zeta.
    rewrite Hn. cbn [py_len bind Nat.eqb isinstance_float]. now rewrite Hl, Ht.
Qed.

Lemma transformation_arguments_checked_witness :
  createFieldsTransformations (mkField 2 (fun _ => [1; 1]%R)) (PyInt 7) (PyFloat 1)
    PyNone 1
  = Raise (AssertionError invalid_arguments).
Proof.
  apply (proj1 (transformation_arguments_checked (mkField 2 (fun _ => [1; 1]%R))
                  (PyInt 7) (PyFloat 1) PyNone 1)).
  cbn. lia.
Defined.

(** ** The translation scale factor *)

Lemma rescaled_translation (angles : list R) (s t0 t1 t2 f : R) (p : list R) :
  rotate_scale_translate angles s [t0; t1; t2] f p =
  rotate_scale_translate angles s [(t0 * f)%R; (t1 * f)%R; (t2 * f)%R] 1 p.
Proof.
  unfold rotate_scale_translate. f_equal. cbn.
  f_equal; [ring|]. f_equal; [ring|]. f_equal. ring.
Qed.

(** X6: the translation scale factor only rescales the translation.  The
    transformation built with translation t and factor f has at every node
    the value of the one built with the translation t * f and factor 1.0,
    which is how [_optimiseAlignment] returns the fitted translation to
    absolute units. *)
Theorem factor_rescales_translation (coordinates : Field) (angles : list R) (s : R)
    (translation : list R) (f : R) :
  getNumberOfComponents coordinates = 3 ->
  List.length angles = 3 ->
  List.length translation = 3 ->
  exists tc tc' rotation scale tr tr',
    createFieldsTransformations coordinates (floats angles) (PyFloat s)
      (floats translation) f = Ok (tc, rotation, scale, tr)
    /\ createFieldsTransformations coordinates (floats angles) (PyFloat s)
         (floats (map (fun x => (x * f)%R) translation)) 1 = Ok (tc', rotation, scale, tr')
    /\ forall node, List.length (evaluate coordinates node) = 3 ->
         evaluate tc node = evaluate tc' node.
Proof.
  intros Hn Ha Ht.
  destruct angles as [|a0 [|a1 [|a2 [|]]]]; try discriminate.
  destruct translation as [|t0 [|t1 [|t2 [|]]]]; try discriminate.
  destruct (transformation_value coordinates a0 a1 a2 s t0 t1 t2 f Hn) as [tc [Hok Hval]].
  destruct (transformation_value coordinates a0 a1 a2 s (t0 * f) (t1 * f) (t2 * f) 1 Hn)
    as [tc' [Hok' Hval']].
  exists tc, tc'. do 4 eexists. split; [exact Hok|]. split; [exact Hok'|].
  intros node Hlen. rewrite (Hval node Hlen), (Hval' node Hlen).
  apply rescaled_translation.
Qed.

Lemma factor_rescales_translation_witness :
  exists tc tc' rotation scale tr tr',
    createFieldsTransformations unit_cube_corner (floats [0; 0; 0]%R) (PyFloat 2)
      (floats [5 / 2; 1 / 2; -3 / 2]%R) 2 = Ok (tc, rotation, scale, tr)
    /\ createFieldsTransformations unit_cube_corner (floats [0; 0; 0]%R) (PyFloat 2)
         (floats (map (fun x => (x * 2)%R) [5 / 2; 1 / 2; -3 / 2]%R)) 1
       = Ok (tc', rotation, scale, tr')
    /\ forall node, List.length (evaluate unit_cube_corner node) = 3 ->
         evaluate tc node = evaluate tc' node.
Proof.
  apply (factor_rescales_translation unit_cube_corner [0; 0; 0]%R 2
           [5 / 2; 1 / 2; -3 / 2]%R 2); reflexivity.
Defined.

(** X7: a zero scale collapses the model.  Whatever the coordinates and
    the rotation angles, with scale 0.0 the transformed coordinates have
    at every node the value factor * translation. *)
Theorem zero_scale_collapses (coordinates : Field) (angles translation : list R) (f : R) :
  getNumberOfComponents coordinates = 3 ->
  List.length angles = 3 ->
  List.length translation = 3 ->
  exists tc rotation scale tr,
    createFieldsTransformations coordinates (floats angles) (PyFloat 0)
      (floats translation) f = Ok (tc, rotation, scale, tr)
    /\ forall node, List.length (evaluate coordinates node) = 3 ->
         evaluate tc node = vscale f translation.
Proof.
  intros Hn Ha Ht.
  destruct angles as [|a0 [|a1 [|a2 [|]]]]; try discriminate.
  destruct translation as [|t0 [|t1 [|t2 [|]]]]; try discriminate.
  destruct (transformation_value coordinates a0 a1 a2 0 t0 t1 t2 f Hn) as [tc [Hok Hval]].
  exists tc. do 3 eexists. split; [exact Hok|].
  intros node Hlen. rewrite (Hval node Hlen).
  destruct (evaluate coordinates node) as [|x [|y [|z [|]]]]; try discriminate.
  unfold rotate_scale_translate. rewrite euler_rotation_matrix_entries. cbn.
  f_equal; [ring|]. f_equal; [ring|]. f_equal. ring.
Qed.

Lemma zero_scale_collapses_witness :
  exists tc rotation scale tr,
    createFieldsTransformations unit_cube_corner (floats [1; 2; 3]%R) (PyFloat 0)
      (floats [5; 1; -3]%R) 1 = Ok (tc, rotation, scale, tr)
    /\ forall node, List.length (evaluate unit_cube_corner node) = 3 ->
         evaluate tc node = vscale 1 [5; 1; -3]%R.
Proof.
  apply (zero_scale_collapses unit_cube_corner [1; 2; 3]%R [5; 1; -3]%R 1); reflexivity.
Defined.

(** ** The matcher, again *)

Lemma match_loop_quiet (modelMarkers : Dict.t Point) (names : list string) :
  (forall n, In n names -> In n (Dict.keys modelMarkers)) ->
  forall m, exists m',
    match_loop false modelMarkers names m = Ok m'
    /\ printed m' = printed m /\ dataMarkers m' = dataMarkers m.
Proof.
  induction names as [|n names IH]; intros Hnames m; cbn.
  - now exists m.
  - destruct (get_in_keys _ _ (Hnames n (or_introl eq_refl))) as [modelPoint Hget].
    rewrite (search_data_find false modelMarkers n modelPoint m Hget). cbn [bind].
    destruct (IH (fun n' Hn' => Hnames n' (or_intror Hn'))
                (match find (matches (matchName_of n)) (dataMarkers m) with
                 | Some (dataName, dataPoint) => paired false n modelPoint dataName dataPoint m
                 | None => m
                 end)) as [m' [Hloop [Hprinted Hdata]]].
    exists m'. split; [exact Hloop|].
    rewrite Hprinted, Hdata.
    destruct (find (matches (matchName_of n)) (dataMarkers m)) as [[dataName dataPoint]|];
      split; reflexivity.
Qed.

Lemma matching_quiet (modelMarkers dataMarkers0 : Dict.t Point) :
  exists m,
    match_markers false modelMarkers dataMarkers0 = Ok m
    /\ printed m = [] /\ dataMarkers m = dataMarkers0.
Proof.
  unfold match_markers.
  destruct (match_loop_quiet modelMarkers (Dict.keys modelMarkers) (fun n Hn => Hn)
              (mkMatching [] dataMarkers0 [])) as [m [Hloop [Hprinted Hdata]]].
  rewrite Hloop. cbn [bind]. exists m. repeat split; assumption.
Qed.

(** X8: without diagnostics the matcher prints nothing and gives the data
    dict back as it was handed in. *)
Theorem matching_without_diagnostics_is_quiet (modelMarkers dataMarkers0 : Dict.t Point) :
  exists m,
    match_markers false modelMarkers dataMarkers0 = Ok m
    /\ printed m = [] /\ dataMarkers m = dataMarkers0.
Proof.
  apply matching_quiet.
Qed.

Lemma in_pop {V} (k : string) (e : string * V) (d : Dict.t V) :
  In e (Dict.pop k d) -> In e d.
Proof.
  induction d as [|[k' v'] d IH]; cbn; [tauto|].
  destruct (String.eqb k' k); [now right|].
  intros [Heq | Hin]; [now left | right; now apply IH].
Qed.

Lemma match_loop_sound (writeDiagnostics : bool) (modelMarkers dataMarkers0 : Dict.t Point)
    (names : list string) :
  (forall n, In n names -> In n (Dict.keys modelMarkers)) ->
  forall m,
    pairs_sound modelMarkers dataMarkers0 m ->
    exists m',
      match_loop writeDiagnostics modelMarkers names m = Ok m'
      /\ pairs_sound modelMarkers dataMarkers0 m'.
Proof.
  induction names as [|n names IH]; intros Hnames m Hsound; cbn.
  - now exists m.
  - destruct (get_in_keys _ _ (Hnames n (or_introl eq_refl))) as [modelPoint Hget].
    rewrite (search_data_find writeDiagnostics modelMarkers n modelPoint m Hget).
    cbn [bind]. apply IH; [intros n' Hn'; apply Hnames; now right|].
    destruct Hsound as [Hpairs Hdata].
    destruct (find (matches (matchName_of n)) (dataMarkers m))
      as [[dataName dataPoint]|] eqn:Hfind.
    + apply find_some in Hfind. destruct Hfind as [Hin Hmatch].
      unfold matches in Hmatch. cbn [fst] in Hmatch. apply String.eqb_eq in Hmatch.
      split.
      * intros name mp dp. cbn [paired markerMap].
        destruct (String.eqb name n) eqn:E.
        -- apply String.eqb_eq in E. subst name. rewrite get_set_same.
           intros H. injection H as <- <-. split; [exact Hget|].
           exists dataName. split; [now apply Hdata | exact Hmatch].
        -- apply String.eqb_neq in E. rewrite get_set_other by exact E. apply Hpairs.
      * intros e. cbn [paired dataMarkers]. destruct writeDiagnostics.
        -- intros He. apply Hdata. now apply in_pop in He.
        -- apply Hdata.
    + destruct writeDiagnostics; split; assumption.
Qed.

(** X10: the pairs of the marker map are sound.  The matcher returns, and
    every pair it has recorded under a model marker name holds the point
    that the model dict has under that name and the point of a data entry
    whose name, stripped and case-folded, equals the model name stripped
    and case-folded. *)
Theorem matched_pairs_share_the_name (writeDiagnostics : bool)
    (modelMarkers dataMarkers0 : Dict.t Point) :
  exists m,
    match_markers writeDiagnostics modelMarkers dataMarkers0 = Ok m
    /\ forall name modelPoint dataPoint,
         Dict.get name (markerMap m) = Some (modelPoint, dataPoint) ->
         Dict.get name modelMarkers = Some modelPoint
         /\ exists dataName,
              In (dataName, dataPoint) dataMarkers0
              /\ matchName_of dataName = matchName_of name.
Proof.
  unfold match_markers.
  destruct (match_loop_sound writeDiagnostics modelMarkers dataMarkers0
              (Dict.keys modelMarkers) (fun n Hn => Hn) (mkMatching [] dataMarkers0 []))
    as [m [Hloop [Hpairs _]]].
  - split; [intros name mp dp H; discriminate | intros e He; exact He].
  - rewrite Hloop. cbn [bind]. eexists. split; [reflexivity|].
    destruct writeDiagnostics; [rewrite report_keeps_markerMap|]; exact Hpairs.
Qed.

Lemma matched_pairs_share_the_name_witness :
  exists m,
    match_markers true three_model_markers three_data_markers = Ok m
    /\ forall name modelPoint dataPoint,
         Dict.get name (markerMap m) = Some (modelPoint, dataPoint) ->
         Dict.get name three_model_markers = Some modelPoint
         /\ exists dataName,
              In (dataName, dataPoint) three_data_markers
              /\ matchName_of dataName = matchName_of name.
Proof.
  apply (matched_pairs_share_the_name true three_model_markers three_data_markers).
Defined.

Lemma diagnostics_consume_data_markers_witness :
  exists m,
    match_markers true three_model_markers three_data_markers = Ok m
    /\ List.length (markerMap m) + List.length (dataMarkers m)
       = List.length three_data_markers.
Proof.
  apply (diagnostics_consume_data_markers three_model_markers three_data_markers).
  unfold Dict.wf. cbn. repeat constructor; cbn; intuition discriminate.
Defined.

(** ** The optimisation step *)

Lemma marker_fields_transform (positions : list Point) (dataScale : R) :
  exists fields,
    createFieldsTransformations (mkField 3 (fun node => nth node positions []))
      PyNone (PyFloat 1) PyNone dataScale = Ok fields.
Proof.
  destruct (transformation_value (mkField 3 (fun node => nth node positions []))
              0 0 0 1 0 0 0 dataScale eq_refl) as [tc [Hok _]].
  eexists. exact Hok.
Qed.

Lemma Reqb_same (x : R) : Reqb x x = true.
Proof. now apply Reqb_true. Qed.

Lemma Reqb_false (x y : R) : x <> y -> Reqb x y = false.
Proof.
  intros Hne. unfold Reqb. destruct (Req_dec_T x y); [contradiction | reflexivity].
Qed.

Lemma optimiseAlignment_unfolded (optimise : (list R -> R -> list R -> R) -> Solution)
    (markerMap : Dict.t (Point * Point)) (w : world) :
  3 <= List.length markerMap ->
  all_of_length 3 (map fst (map snd markerMap))
    && all_of_length 3 (map snd (map snd markerMap)) = true ->
  getDataScale (fitter w) <> 0%R ->
  _optimiseAlignment optimise markerMap w =
  let solution := optimise (alignment_objective markerMap (getDataScale (fitter w))) in
  let w1 := if Z.ltb 1 (getDiagnosticLevel (fitter w))
            then write [solutionReport solution] w else w in
  if result_ok solution
  then (Ok tt, on_self (fitted solution (getDataScale (fitter w))) w1)
  else (Raise (AssertionError "Align:  Alignment to markers optimisation failed"), w1).
Proof.
  intros Hcount Hlen Hscale.
  unfold _optimiseAlignment, mbind, assert_, get, lift, modify, ret, raise.
  apply Nat.leb_le in Hcount. rewrite Hcount, Hlen.
  destruct (marker_fields_transform (map fst (map snd markerMap))
              (getDataScale (fitter w))) as [fields Hf].
  rewrite Hf, (Reqb_false _ _ Hscale).
  cbv zeta. fold (alignment_objective markerMap (getDataScale (fitter w))).
  destruct (Z.ltb 1 (getDiagnosticLevel (fitter w)));
    destruct (result_ok (optimise (alignment_objective markerMap
                                     (getDataScale (fitter w))))); reflexivity.
Qed.

(** [_optimiseAlignment] prints the solution report above level 1 only. *)
Lemma optimiseAlignment_quiet (optimise : (list R -> R -> list R -> R) -> Solution)
    (markerMap : Dict.t (Point * Point)) (w w1 : world) (r : res unit) :
  _optimiseAlignment optimise markerMap w = (r, w1) ->
  (getDiagnosticLevel (fitter w) <= 1)%Z -> stdout w1 = stdout w.
Proof.
  unfold _optimiseAlignment, mbind, assert_, get, lift, modify, ret, raise.
  destruct (Nat.leb 3 (List.length markerMap));
    [|intros H; injection H as <- <-; reflexivity].
  destruct (all_of_length 3 (map fst (map snd markerMap))
            && all_of_length 3 (map snd (map snd markerMap)));
    [|intros H; injection H as <- <-; reflexivity].
  destruct (marker_fields_transform (map fst (map snd markerMap))
              (getDataScale (fitter w))) as [fields Hf].
  rewrite Hf.
  destruct (Reqb (getDataScale (fitter w)) 0);
    [intros H; injection H as <- <-; reflexivity|].
  cbv zeta. fold (alignment_objective markerMap (getDataScale (fitter w))).
  destruct (Z.ltb 1 (getDiagnosticLevel (fitter w))) eqn:Hlevel;
    destruct (result_ok (optimise (alignment_objective markerMap
                                     (getDataScale (fitter w)))));
    intros H; injection H as <- <-; cbn;
    try reflexivity; intros Hle; apply Z.ltb_lt in Hlevel; lia.
Qed.

(** X11: a successful optimisation stores the fit.  With at least 3 pairs
    of 3 components each, a data scale other than zero and an optimisation
    that reports success, the step receives the rotation and the scale of
    the solution and its translation multiplied by the data scale; the
    flag, the has-run mark and the fitter stay as they are, and the
    solution report is printed at diagnostic level 2 and above only. *)
Theorem optimisation_stores_the_fit (optimise : (list R -> R -> list R -> R) -> Solution)
    (markerMap : Dict.t (Point * Point)) (w : world) :
  3 <= List.length markerMap ->
  all_of_length 3 (map fst (map snd markerMap))
    && all_of_length 3 (map snd (map snd markerMap)) = true ->
  getDataScale (fitter w) <> 0%R ->
  result_ok (optimise (alignment_objective markerMap (getDataScale (fitter w)))) = true ->
  _optimiseAlignment optimise markerMap w =
  (Ok tt,
   mkWorld (fitted (optimise (alignment_objective markerMap (getDataScale (fitter w))))
                   (getDataScale (fitter w)) (self w))
           (fitter w)
           (if Z.ltb 1 (getDiagnosticLevel (fitter w))
            then stdout w
                 ++ [solutionReport
                       (optimise (alignment_objective markerMap (getDataScale (fitter w))))]
            else stdout w)).
Proof.
  intros Hcount Hlen Hscale Hok.
  rewrite (optimiseAlignment_unfolded optimise markerMap w Hcount Hlen Hscale).
  cbv zeta. rewrite Hok.
  destruct (Z.ltb 1 (getDiagnosticLevel (fitter w))); reflexivity.
Qed.

Lemma optimisation_stores_the_fit_witness :
  _optimiseAlignment fixed_optimise three_pairs three_markers_world
  = (Ok tt,
     mkWorld (mkStep (PyBool true) (floats [0; 0; 0]%R) (PyFloat 2)
                     (floats [5 / 2 * 2; 1 / 2 * 2; -3 / 2 * 2]%R) false)
             (fitter three_markers_world) []).
Proof.
  apply (optimisation_stores_the_fit fixed_optimise three_pairs three_markers_world).
  - cbn. lia.
  - reflexivity.
  - cbn. lra.
  - reflexivity.
Defined.

(** X12: an optimisation that cannot be run or that fails writes nothing
    into the step.  With at least 3 pairs of 3 components each, a zero
    data scale raises ZeroDivisionError where the residual is divided by
    it, and an optimisation that does not report success raises 'Align:
    Alignment to markers optimisation failed'; both happen before the
    fitted values are read, so the step object and the fitter are as they
    were, and only the solution report has been printed, at diagnostic
    level 2 and above. *)
Theorem failed_optimisation_keeps_step (optimise : (list R -> R -> list R -> R) -> Solution)
    (markerMap : Dict.t (Point * Point)) (w : world) :
  3 <= List.length markerMap ->
  all_of_length 3 (map fst (map snd markerMap))
    && all_of_length 3 (map snd (map snd markerMap)) = true ->
  (getDataScale (fitter w) = 0%R ->
   _optimiseAlignment optimise markerMap w = (Raise ZeroDivisionError, w))
  /\ (getDataScale (fitter w) <> 0%R ->
      result_ok (optimise (alignment_objective markerMap (getDataScale (fitter w)))) = false ->
      _optimiseAlignment optimise markerMap w =
      (Raise (AssertionError "Align:  Alignment to markers optimisation failed"),
       mkWorld (self w) (fitter w)
               (if Z.ltb 1 (getDiagnosticLevel (fitter w))
                then stdout w
                     ++ [solutionReport
                           (optimise (alignment_objective markerMap
                                        (getDataScale (fitter w))))]
                else stdout w))).
Proof.
  intros Hcount Hlen. split.
  - intros Hzero.
    unfold _optimiseAlignment, mbind, assert_, get, lift, modify, ret, raise.
    apply Nat.leb_le in Hcount. rewrite Hcount, Hlen.
    destruct (marker_fields_transform (map fst (map snd markerMap))
                (getDataScale (fitter w))) as [fields Hf].
    rewrite Hf, Hzero, Reqb_same. reflexivity.
  - intros Hscale Hfail.
    rewrite (optimiseAlignment_unfolded optimise markerMap w Hcount Hlen Hscale).
    cbv zeta. rewrite Hfail.
    destruct w as [self0 fitter0 stdout0]. cbn.
    destruct (Z.ltb 1 (getDiagnosticLevel fitter0)); reflexivity.
Qed.

Lemma failed_optimisation_keeps_step_witness :
  _optimiseAlignment failing_optimise three_pairs three_markers_world =
  (Raise (AssertionError "Align:  Alignment to markers optimisation failed"),
   three_markers_world).
Proof.
  apply (proj2 (failed_optimisation_keeps_step failing_optimise three_pairs
                  three_markers_world (le_n 3) eq_refl)).
  - cbn. lra.
  - reflexivity.
Defined.

(** ** Running the step *)

Lemma run_split (optimise : (list R -> R -> list R -> R) -> Solution) (w : world)
    (coords : Field) :
  getModelCoordinatesField (fitter w) = Some coords ->
  run optimise w =
  if truthy (_alignMarkers (self w)) then
    match _doAlignMarkers optimise w with
    | (Ok _, w1) => apply_transformation coords w1
    | (Raise e, w1) => (Raise e, w1)
    end
  else apply_transformation coords w.
Proof.
  intros Hc. unfold run, mbind, get, require. rewrite Hc. unfold ret.
  destruct (truthy (_alignMarkers (self w))).
  - destruct (_doAlignMarkers optimise w) as [[[]|e] w1]; [|reflexivity].
    unfold apply_transformation, lift, modify.
    destruct (createFieldsTransformations coords (_rotation (self w1)) (_scale (self w1))
                (_translation (self w1)) 1) as [[[[tc r] s] t]|e]; reflexivity.
  - unfold apply_transformation, lift, modify.
    destruct (createFieldsTransformations coords (_rotation (self w)) (_scale (self w))
                (_translation (self w)) 1) as [[[[tc r] s] t]|e]; reflexivity.
Qed.

(** [_doAlignMarkers] prints nothing at level 0 and below. *)
Lemma doAlignMarkers_quiet (optimise : (list R -> R -> list R -> R) -> Solution)
    (w w1 : world) (r : res unit) :
  _doAlignMarkers optimise w = (r, w1) ->
  (getDiagnosticLevel (fitter w) <= 0)%Z -> stdout w1 = stdout w.
Proof.
  unfold _doAlignMarkers, mbind, get, require, ret, raise, lift, modify.
  destruct (getMarkerGroup (fitter w));
    [|intros H; injection H as <- <-; reflexivity].
  destruct (getMarkerModelCentres (fitter w)) as [modelMarkers|];
    [|intros H; injection H as <- <-; reflexivity].
  destruct (getMarkerDataCentres (fitter w)) as [dataMarkers0|];
    [|intros H; injection H as <- <-; reflexivity].
  intros H Hle.
  replace (Z.ltb 0 (getDiagnosticLevel (fitter w))) with false in H
    by (symmetry; apply Z.ltb_ge; exact Hle).
  destruct (matching_quiet modelMarkers dataMarkers0) as [m [Hm [Hprinted _]]].
  rewrite Hm in H. apply optimiseAlignment_quiet in H; [|cbn; lia].
  rewrite H. cbn. rewrite Hprinted. apply app_nil_r.
Qed.

Lemma apply_transformation_value (coords : Field) (w : world) (angles : list R) (s : R)
    (t : list R) :
  getNumberOfComponents coords = 3 ->
  _rotation (self w) = floats angles -> List.length angles = 3 ->
  _scale (self w) = PyFloat s ->
  _translation (self w) = floats t -> List.length t = 3 ->
  exists transformed,
    apply_transformation coords w =
      (Ok tt, mkWorld (setHasRun true (self w))
                      (assign_model_coordinates transformed (fitter w)) (stdout w))
    /\ getNumberOfComponents transformed = 3
    /\ forall node, List.length (evaluate coords node) = 3 ->
         evaluate transformed node = rotate_scale_translate angles s t 1 (evaluate coords node).
Proof.
  intros Hn Hr Ha Hs Ht Hlen.
  destruct angles as [|a0 [|a1 [|a2 [|]]]]; try discriminate.
  destruct t as [|t0 [|t1 [|t2 [|]]]]; try discriminate.
  destruct (transformation_value coords a0 a1 a2 s t0 t1 t2 1 Hn) as [tc [Hok Hval]].
  unfold apply_transformation. rewrite Hr, Hs, Ht. unfold floats. rewrite Hok.
  eexists. split; [reflexivity|]. split; [exact Hn|]. exact Hval.
Qed.

Lemma apply_transformation_quiet (coords : Field) (w w1 : world) (r : res unit) :
  apply_transformation coords w = (r, w1) -> stdout w1 = stdout w.
Proof.
  unfold apply_transformation.
  destruct (createFieldsTransformations coords (_rotation (self w)) (_scale (self w))
              (_translation (self w)) 1) as [[[[tc rot] sc] tr]|e0];
    intros H; injection H as <- <-; reflexivity.
Qed.

(** X13: what a run needs.  Without model coordinates the run raises
    'Align:  Missing model coordinates'; a run that aligns to markers
    raises the assertion error of the first of the marker group, the model
    marker fields and the data marker fields that is missing; in each case
    the world is as it was. *)
Theorem run_requires_its_collaborators (optimise : (list R -> R -> list R -> R) -> Solution)
    (w : world) :
  (getModelCoordinatesField (fitter w) = None ->
   run optimise w = (Raise (AssertionError "Align:  Missing model coordinates"), w))
  /\ (forall coords,
         getModelCoordinatesField (fitter w) = Some coords ->
         truthy (_alignMarkers (self w)) = true ->
         (getMarkerGroup (fitter w) = None ->
          run optimise w = (Raise (AssertionError "Align:  No marker group to align with"), w))
         /\ (forall group,
               getMarkerGroup (fitter w) = Some group ->
               getMarkerModelCentres (fitter w) = None ->
               run optimise w =
               (Raise (AssertionError "Align:  No marker group, coordinates or name fields"),
                w))
         /\ (forall group modelMarkers,
               getMarkerGroup (fitter w) = Some group ->
               getMarkerModelCentres (fitter w) = Some modelMarkers ->
               getMarkerDataCentres (fitter w) = None ->
               run optimise w =
               (Raise (AssertionError
                         "Align:  No marker data group, coordinates or name fields"), w))).
Proof.
  split.
  - intros Hc. unfold run, mbind, get, require. now rewrite Hc.
  - intros coords Hc Ha. rewrite (run_split optimise w coords Hc), Ha.
    unfold _doAlignMarkers, mbind, get, require, ret, raise.
    split; [|split].
    + intros Hg. now rewrite Hg.
    + intros group Hg Hm. now rewrite Hg, Hm.
    + intros group modelMarkers Hg Hm Hd. now rewrite Hg, Hm, Hd.
Qed.

Lemma run_requires_its_collaborators_witness :
  run idle_optimise empty_world =
  (Raise (AssertionError "Align:  Missing model coordinates"), empty_world).
Proof.
  apply (proj1 (run_requires_its_collaborators idle_optimise empty_world)).
  reflexivity.
Defined.

(** X14: a run that does not align to markers applies the stored
    parameters.  On model coordinates of 3 components, with a stored
    rotation and translation of 3 floats and a float scale, the run
    succeeds, prints nothing, marks the step as run, keeps its settings,
    and gives the model coordinates at every node the value
    scale * (R * p) + translation of their former value p. *)
Theorem run_applies_stored_transformation
    (optimise : (list R -> R -> list R -> R) -> Solution) (w : world) (coords : Field)
    (angles : list R) (s : R) (t : list R) :
  getModelCoordinatesField (fitter w) = Some coords ->
  getNumberOfComponents coords = 3 ->
  truthy (_alignMarkers (self w)) = false ->
  _rotation (self w) = floats angles -> List.length angles = 3 ->
  _scale (self w) = PyFloat s ->
  _translation (self w) = floats t -> List.length t = 3 ->
  exists transformed,
    run optimise w =
      (Ok tt, mkWorld (setHasRun true (self w))
                      (assign_model_coordinates transformed (fitter w)) (stdout w))
    /\ getNumberOfComponents transformed = 3
    /\ forall node, List.length (evaluate coords node) = 3 ->
         evaluate transformed node = rotate_scale_translate angles s t 1 (evaluate coords node).
Proof.
  intros Hc Hn Ha Hr Hla Hs Ht Hlt.
  rewrite (run_split optimise w coords Hc), Ha.
  now apply apply_transformation_value.
Qed.

Lemma run_applies_stored_transformation_witness :
  exists transformed,
    run idle_optimise scaled_world =
      (Ok tt, mkWorld (setHasRun true (self scaled_world))
                      (assign_model_coordinates transformed (fitter scaled_world))
                      (stdout scaled_world))
    /\ getNumberOfComponents transformed = 3
    /\ forall node, List.length (evaluate unit_cube_corner node) = 3 ->
         evaluate transformed node =
         rotate_scale_translate [0; 0; 0]%R 2 [5; 1; -3]%R 1 (evaluate unit_cube_corner node).
Proof.
  apply (run_applies_stored_transformation idle_optimise scaled_world unit_cube_corner
           [0; 0; 0]%R 2 [5; 1; -3]%R); reflexivity.
Defined.

(** X15: a run of a step with the parameters of [__init__] leaves the
    geometry alone.  The model coordinates keep their value at every node;
    the step is marked as run. *)
Theorem run_of_new_step_keeps_coordinates
    (optimise : (list R -> R -> list R -> R) -> Solution) (w : world) (coords : Field) :
  getModelCoordinatesField (fitter w) = Some coords ->
  getNumberOfComponents coords = 3 ->
  self w = init ->
  exists transformed,
    run optimise w =
      (Ok tt, mkWorld (setHasRun true init)
                      (assign_model_coordinates transformed (fitter w)) (stdout w))
    /\ forall node, List.length (evaluate coords node) = 3 ->
         evaluate transformed node = evaluate coords node.
Proof.
  intros Hc Hn Hself.
  rewrite (run_split optimise w coords Hc), Hself. cbn [truthy _alignMarkers init].
  destruct (apply_transformation_value coords w [0; 0; 0]%R 1 [0; 0; 0]%R Hn)
    as [transformed [Hrun [_ Hval]]]; try (rewrite Hself; reflexivity); try reflexivity.
  exists transformed. rewrite Hrun, Hself. split; [reflexivity|].
  intros node Hlen. rewrite (Hval node Hlen). now apply identity_transform.
Qed.

Lemma run_of_new_step_keeps_coordinates_witness :
  exists transformed,
    run idle_optimise (mkWorld init (fitter scaled_world) []) =
      (Ok tt, mkWorld (setHasRun true init)
                      (assign_model_coordinates transformed (fitter scaled_world)) [])
    /\ forall node, List.length (evaluate unit_cube_corner node) = 3 ->
         evaluate transformed node = evaluate unit_cube_corner node.
Proof.
  apply (run_of_new_step_keeps_coordinates idle_optimise
           (mkWorld init (fitter scaled_world) []) unit_cube_corner); reflexivity.
Defined.

Lemma rotate_scale_translate_length (angles : list R) (s : R) (t : list R) (f : R)
    (p : list R) :
  List.length angles = 3 -> List.length t = 3 -> List.length p = 3 ->
  List.length (rotate_scale_translate angles s t f p) = 3.
Proof.
  intros Ha Ht Hp.
  destruct angles as [|a0 [|a1 [|a2 [|]]]]; try discriminate.
  destruct t as [|t0 [|t1 [|t2 [|]]]]; try discriminate.
  destruct p as [|x [|y [|z [|]]]]; try discriminate.
  reflexivity.
Qed.

(** X16: running again transforms again.  A second run of the step takes
    the coordinates the first one has assigned and applies the stored
    parameters to them once more: the run is not idempotent. *)
Theorem run_twice_transforms_twice
    (optimise : (list R -> R -> list R -> R) -> Solution) (w : world) (coords : Field)
    (angles : list R) (s : R) (t : list R) :
  getModelCoordinatesField (fitter w) = Some coords ->
  getNumberOfComponents coords = 3 ->
  truthy (_alignMarkers (self w)) = false ->
  _rotation (self w) = floats angles -> List.length angles = 3 ->
  _scale (self w) = PyFloat s ->
  _translation (self w) = floats t -> List.length t = 3 ->
  exists w1 w2 transformed,
    run optimise w = (Ok tt, w1)
    /\ run optimise w1 = (Ok tt, w2)
    /\ getModelCoordinatesField (fitter w2) = Some transformed
    /\ forall node, List.length (evaluate coords node) = 3 ->
         evaluate transformed node =
         rotate_scale_translate angles s t 1
           (rotate_scale_translate angles s t 1 (evaluate coords node)).
Proof.
  intros Hc Hn Ha Hr Hla Hs Ht Hlt.
  destruct (apply_transformation_value coords w angles s t Hn Hr Hla Hs Ht Hlt)
    as [first [Hrun1 [Hn1 Hval1]]].
  set (w1 := mkWorld (setHasRun true (self w))
                     (assign_model_coordinates first (fitter w)) (stdout w)).
  destruct (apply_transformation_value first w1 angles s t Hn1 Hr Hla Hs Ht Hlt)
    as [second [Hrun2 [_ Hval2]]].
  exists w1. eexists. exists second.
  split; [rewrite (run_split optimise w coords Hc), Ha; exact Hrun1|].
  split; [rewrite (run_split optimise w1 first eq_refl); cbn [w1 self setHasRun _alignMarkers];
          rewrite Ha; exact Hrun2|].
  split; [reflexivity|].
  intros node Hlen. rewrite Hval2.
  - now rewrite (Hval1 node Hlen).
  - rewrite (Hval1 node Hlen). now apply rotate_scale_translate_length.
Qed.

Lemma run_twice_transforms_twice_witness :
  exists w1 w2 transformed,
    run idle_optimise scaled_world = (Ok tt, w1)
    /\ run idle_optimise w1 = (Ok tt, w2)
    /\ getModelCoordinatesField (fitter w2) = Some transformed
    /\ forall node, List.length (evaluate unit_cube_corner node) = 3 ->
         evaluate transformed node =
         rotate_scale_translate [0; 0; 0]%R 2 [5; 1; -3]%R 1
           (rotate_scale_translate [0; 0; 0]%R 2 [5; 1; -3]%R 1
              (evaluate unit_cube_corner node)).
Proof.
  apply (run_twice_transforms_twice idle_optimise scaled_world unit_cube_corner
           [0; 0; 0]%R 2 [5; 1; -3]%R); reflexivity.
Defined.

Lemma run_quiet (optimise : (list R -> R -> list R -> R) -> Solution)
    (w w' : world) (r : res unit) :
  run optimise w = (r, w') ->
  (getDiagnosticLevel (fitter w) <= 0)%Z -> stdout w' = stdout w.
Proof.
  destruct (getModelCoordinatesField (fitter w)) as [coords|] eqn:Hc.
  - rewrite (run_split optimise w coords Hc).
    destruct (truthy (_alignMarkers (self w))).
    + destruct (_doAlignMarkers optimise w) as [[[]|e0] w1] eqn:Halign.
      * intros H Hle. apply apply_transformation_quiet in H. rewrite H.
        now apply (doAlignMarkers_quiet optimise w w1 (Ok tt) Halign).
      * intros H Hle. injection H as <- <-.
        now apply (doAlignMarkers_quiet optimise w w1 (Raise e0) Halign).
    + intros H _. now apply apply_transformation_quiet in H.
  - unfold run, mbind, get, require. rewrite Hc.
    intros H _. injection H as <- <-. reflexivity.
Qed.

(** X17: at diagnostic level 0 and below a run prints nothing, whatever
    its path and its outcome. *)
Theorem run_is_silent_without_diagnostics
    (optimise : (list R -> R -> list R -> R) -> Solution) (w : world) :
  (getDiagnosticLevel (fitter w) <= 0)%Z ->
  stdout (snd (run optimise w)) = stdout w.
Proof.
  intros Hle. destruct (run optimise w) as [r w'] eqn:Hrun.
  now apply (run_quiet optimise w w' r Hrun).
Qed.

Lemma run_is_silent_without_diagnostics_witness :
  stdout (snd (run fixed_optimise three_markers_world)) = stdout three_markers_world.
Proof.
  apply (run_is_silent_without_diagnostics fixed_optimise three_markers_world).
  cbn. lia.
Defined.

Lemma rotation_length_refused (coordinates : Field) (l : list pyval)
    (scale translation_offsets : pyval) (factor : R) :
  List.length l <> 3 ->
  createFieldsTransformations coordinates (PyList l) scale translation_offsets factor
  = Raise (AssertionError invalid_arguments).
Proof.
  intros Hlen.
  unfold createFieldsTransformations, arguments_valid. cbv zeta.
  destruct (Nat.eqb (getNumberOfComponents coordinates) 3) eqn:Hn; [|reflexivity].
  apply Nat.eqb_eq in Hn. rewrite Hn. apply Nat.eqb_neq in Hlen.
  cbn [py_len bind]. now rewrite Hlen.
Qed.

Lemma decode_stores_rotation (dct : Dict.t pyval) (self0 self1 : FitterStepAlign)
    (r : pyval) :
  decodeSettingsJSONDict dct self0 = (Ok tt, self1) ->
  Dict.get "rotation" dct = Some r ->
  _rotation self1 = r.
Proof.
  intros Hdecode Hget. revert Hdecode.
  unfold decodeSettingsJSONDict, mbind, assert_, lift, subscript, modify, ret, raise.
  rewrite Hget.
  destruct (Dict.mem _jsonTypeId dct); [|discriminate].
  destruct (Dict.get "alignMarkers" dct); [|discriminate].
  destruct (Dict.get "scale" dct); [|discriminate].
  destruct (Dict.get "translation" dct); [|discriminate].
  intros H. injection H as <-. reflexivity.
Qed.

(** X18: parameters that the transformation refuses stop the run before
    anything is assigned.  In a run that does not align to markers, an
    error raised by [createFieldsTransformations] on the stored parameters
    is the error of the run, and the world is as it was.  Decoding stores
    a rotation without looking at its length, so settings decoded with a
    rotation list of a length other than 3 are refused at the run only,
    with 'createFieldsTransformations.  Invalid arguments'. *)
Theorem refused_parameters_stop_the_run
    (optimise : (list R -> R -> list R -> R) -> Solution) (w : world) (coords : Field) :
  getModelCoordinatesField (fitter w) = Some coords ->
  truthy (_alignMarkers (self w)) = false ->
  (forall e,
      createFieldsTransformations coords (_rotation (self w)) (_scale (self w))
        (_translation (self w)) 1 = Raise e ->
      run optimise w = (Raise e, w))
  /\ (forall (dct : Dict.t pyval) (self0 : FitterStepAlign) (l : list pyval),
        decodeSettingsJSONDict dct self0 = (Ok tt, self w) ->
        Dict.get "rotation" dct = Some (PyList l) ->
        List.length l <> 3 ->
        run optimise w = (Raise (AssertionError invalid_arguments), w)).
Proof.
  intros Hc Ha.
  assert (Hraise : forall e,
             createFieldsTransformations coords (_rotation (self w)) (_scale (self w))
               (_translation (self w)) 1 = Raise e ->
             run optimise w = (Raise e, w)).
  { intros e He. rewrite (run_split optimise w coords Hc), Ha.
    unfold apply_transformation. now rewrite He. }
  split; [exact Hraise|].
  intros dct self0 l Hdecode Hget Hlen. apply Hraise.
  rewrite (decode_stores_rotation dct self0 (self w) (PyList l) Hdecode Hget).
  now apply rotation_length_refused.
Qed.

Lemma refused_parameters_stop_the_run_witness :
  run idle_optimise short_rotation_world =
  (Raise (AssertionError invalid_arguments), short_rotation_world).
Proof.
  apply (proj2 (refused_parameters_stop_the_run idle_optimise short_rotation_world
                  unit_cube_corner eq_refl eq_refl)
           settings_with_short_rotation init [PyFloat 0; PyFloat 0]).
  - reflexivity.
  - reflexivity.
  - cbn. lia.
Defined.

Lemma doAlignMarkers_unfolded (optimise : (list R -> R -> list R -> R) -> Solution)
    (w : world) (group : string) (modelMarkers dataMarkers0 : Dict.t Point) (m : matching) :
  getMarkerGroup (fitter w) = Some group ->
  getMarkerModelCentres (fitter w) = Some modelMarkers ->
  getMarkerDataCentres (fitter w) = Some dataMarkers0 ->
  match_markers (Z.ltb 0 (getDiagnosticLevel (fitter w))) modelMarkers dataMarkers0 = Ok m ->
  _doAlignMarkers optimise w = _optimiseAlignment optimise (markerMap m) (write (printed m) w).
Proof.
  intros Hg Hm Hd Hmatch.
  unfold _doAlignMarkers, mbind, get, require, ret, lift, modify.
  now rewrite Hg, Hm, Hd, Hmatch.
Qed.

(** X19: a run that aligns to markers applies the fit it has just stored,
    and what it applies is the transformation the optimisation has
    evaluated.  When the matching gives at least 3 pairs of 3 components,
    the data scale is not zero and the optimisation reports success with 3
    rotation and 3 translation values, the run succeeds; the step holds the
    fitted parameters, with the translation multiplied by the data scale,
    and is marked as run; and the model coordinates take at every node the
    value scale * (R * p) + dataScale * translation, written with the
    rotation, scale and translation of the solution itself. *)
Theorem aligned_run_applies_the_fit
    (optimise : (list R -> R -> list R -> R) -> Solution) (w : world) (coords : Field)
    (group : string) (modelMarkers dataMarkers0 : Dict.t Point) (m : matching)
    (solution : Solution) :
  getModelCoordinatesField (fitter w) = Some coords ->
  getNumberOfComponents coords = 3 ->
  truthy (_alignMarkers (self w)) = true ->
  getMarkerGroup (fitter w) = Some group ->
  getMarkerModelCentres (fitter w) = Some modelMarkers ->
  getMarkerDataCentres (fitter w) = Some dataMarkers0 ->
  match_markers (Z.ltb 0 (getDiagnosticLevel (fitter w))) modelMarkers dataMarkers0 = Ok m ->
  3 <= List.length (markerMap m) ->
  all_of_length 3 (map fst (map snd (markerMap m)))
    && all_of_length 3 (map snd (map snd (markerMap m))) = true ->
  getDataScale (fitter w) <> 0%R ->
  optimise (alignment_objective (markerMap m) (getDataScale (fitter w))) = solution ->
  result_ok solution = true ->
  List.length (rotation_values solution) = 3 ->
  List.length (translation_values solution) = 3 ->
  exists w' transformed,
    run optimise w = (Ok tt, w')
    /\ self w' = setHasRun true (fitted solution (getDataScale (fitter w)) (self w))
    /\ getModelCoordinatesField (fitter w') = Some transformed
    /\ forall node, List.length (evaluate coords node) = 3 ->
         evaluate transformed node =
         rotate_scale_translate (rotation_values solution) (scale_value solution)
           (translation_values solution) (getDataScale (fitter w)) (evaluate coords node).
Proof.
  intros Hc Hn Ha Hg Hm Hd Hmatch Hcount Hlen Hscale Hsol Hok Hlr Hlt.
  rewrite (run_split optimise w coords Hc), Ha.
  rewrite (doAlignMarkers_unfolded optimise w group modelMarkers dataMarkers0 m Hg Hm Hd Hmatch).
  rewrite (optimiseAlignment_unfolded optimise (markerMap m) (write (printed m) w) Hcount Hlen)
    by exact Hscale.
  cbv zeta. cbn [fitter write]. rewrite Hsol, Hok.
  set (w1 := on_self (fitted solution (getDataScale (fitter w))) _).
  destruct (apply_transformation_value coords w1 (rotation_values solution)
              (scale_value solution)
              (map (fun x => (x * getDataScale (fitter w))%R) (translation_values solution))
              Hn) as [transformed [Hrun [_ Hval]]].
  - subst w1. now destruct (Z.ltb 1 (getDiagnosticLevel (fitter w))).
  - exact Hlr.
  - subst w1. now destruct (Z.ltb 1 (getDiagnosticLevel (fitter w))).
  - subst w1. unfold floats. rewrite map_map.
    now destruct (Z.ltb 1 (getDiagnosticLevel (fitter w))).
  - now rewrite length_map.
  - eexists. exists transformed. split; [exact Hrun|].
    split; [subst w1; now destruct (Z.ltb 1 (getDiagnosticLevel (fitter w)))|].
    split; [reflexivity|].
    intros node Hnode. rewrite (Hval node Hnode).
    destruct (translation_values solution) as [|t0 [|t1 [|t2 [|]]]]; try discriminate.
    symmetry. apply rescaled_translation.
Qed.

Lemma aligned_run_applies_the_fit_witness :
  exists w' transformed,
    run fixed_optimise three_markers_world = (Ok tt, w')
    /\ self w' = setHasRun true (fitted (fixed_optimise (fun _ _ _ => 0%R)) 2
                                        (self three_markers_world))
    /\ getModelCoordinatesField (fitter w') = Some transformed
    /\ forall node, List.length (evaluate unit_cube_corner node) = 3 ->
         evaluate transformed node =
         rotate_scale_translate [0; 0; 0]%R 2 [5 / 2; 1 / 2; -3 / 2]%R 2
           (evaluate unit_cube_corner node).
Proof.
  apply (aligned_run_applies_the_fit fixed_optimise three_markers_world unit_cube_corner
           "marker" three_model_markers three_data_markers
           (mkMatching three_pairs three_data_markers [])
           (fixed_optimise (fun _ _ _ => 0%R))); try reflexivity.
  cbn. lra.
Defined.

(** ** The diagnostics of the matcher *)

Lemma match_loop_reports (modelMarkers : Dict.t Point) (names : list string) :
  (forall n, In n names -> In n (Dict.keys modelMarkers)) ->
  forall m, exists m',
    match_loop true modelMarkers names m = Ok m'
    /\ List.length (printed m') = List.length (printed m) + List.length names.
Proof.
  induction names as [|n names IH]; intros Hnames m; cbn [match_loop].
  - exists m. split; [reflexivity | cbn; lia].
  - destruct (get_in_keys _ _ (Hnames n (or_introl eq_refl))) as [modelPoint Hget].
    rewrite (search_data_find true modelMarkers n modelPoint m Hget). cbn [bind].
    match goal with
    | |- exists m', match_loop true modelMarkers names ?m1 = Ok m' /\ _ =>
        destruct (IH (fun n' Hn' => Hnames n' (or_intror Hn')) m1) as [m' [Hloop Hcount]];
        assert (Hone : List.length (printed m1) = S (List.length (printed m)))
    end.
    { destruct (find (matches (matchName_of n)) (dataMarkers m)) as [[dataName dataPoint]|];
        cbn; rewrite length_app; cbn; lia. }
    exists m'. split; [exact Hloop|]. rewrite Hcount, Hone. cbn. lia.
Qed.

Lemma report_length (names : list string) (m : matching) :
  List.length (printed (fold_left (fun acc dataName =>
                                     print (not_in_model_message dataName) acc) names m))
  = List.length (printed m) + List.length names.
Proof.
  revert m. induction names as [|n names IH]; intros m; cbn [fold_left].
  - cbn. lia.
  - rewrite IH. cbn. rewrite length_app. cbn. lia.
Qed.

(** X20: with diagnostics on the matcher prints one line for every model
    marker, found or not, and one line for every data marker that is left
    in the dict when the matching ends. *)
Theorem diagnostics_report_every_marker (modelMarkers dataMarkers0 : Dict.t Point) :
  exists m,
    match_markers true modelMarkers dataMarkers0 = Ok m
    /\ List.length (printed m) = List.length modelMarkers + List.length (dataMarkers m).
Proof.
  unfold match_markers.
  destruct (match_loop_reports modelMarkers (Dict.keys modelMarkers) (fun n Hn => Hn)
              (mkMatching [] dataMarkers0 [])) as [m [Hloop Hcount]].
  rewrite Hloop. cbn [bind]. eexists. split; [reflexivity|].
  rewrite report_length, report_keeps_dataMarkers, Hcount.
  unfold Dict.keys. rewrite !length_map. reflexivity.
Qed.
